(** * GeoJSONReader: a shallow embedding of [src/io/GeoJSONReader.cpp]

    The reader turns a document tree built by the nlohmann JSON library into
    GEOS geometries and into [GeoJSONValue] property trees.  The embedding
    follows the C++ text function by function.  Three layers are needed:

    - [Module nlohmann]: the document tree ([json]) and the library calls the
      reader makes on it ([operator[]], [at], [get<T>], [items], range-for);
    - [Module geom]: the geometries handed back by the [GeometryFactory];
    - [Module GeoJSONReader]: the member functions of the reader.

    Every C++ call may return, throw, or leave the defined behaviour of the
    language; [outcome] keeps the three apart. *)

From Stdlib Require Import List String Ascii ZArith Bool Arith Lia.
From Stdlib Require Import SpecFloat.
From Stdlib Require Decimal DecimalString DecimalNat.
From Stdlib Require OrdersEx.
Import ListNotations.

Local Open Scope string_scope.
Local Open Scope list_scope.

(** ** Outcomes of a C++ call *)

(** The classes of [nlohmann::json::exception] the reader can meet. *)
Inductive json_exception : Type :=
| parse_error (byte : nat) (what : string)   (* json::parse on invalid text *)
| type_error       (* a value of the wrong type for the call *)
| out_of_range.    (* at() past the end of an array *)

(** What a [catch] clause can see: the JSON library's exceptions and
    [geos::io::ParseException], which carries a message. *)
Inductive exn : Type :=
| JsonException (e : json_exception)
| ParseException (msg : string).

(** Calls whose behaviour the C++ standard or the library leaves undefined. *)
Inductive undefined : Type :=
| AbsentKey (key : string)                (* const operator[] on a missing key *)
| VectorOutOfRange (index size : nat).    (* std::vector access past the end *)

(** The outcome of a call. [OutOfFuel] belongs to the embedding, not to
    C++: it is the answer of a recursion whose call budget ran out, and
    [readGeometry_in_budget] shows the reader never gives it. *)
Inductive outcome (A : Type) : Type :=
| Ok (a : A)
| Throw (e : exn)
| Undefined (u : undefined)
| OutOfFuel.

Arguments Ok {A} a.
Arguments Throw {A} e.
Arguments Undefined {A} u.
Arguments OutOfFuel {A}.

Definition bind {A B} (m : outcome A) (k : A -> outcome B) : outcome B :=
  match m with
  | Ok a => k a
  | Throw e => Throw e
  | Undefined u => Undefined u
  | OutOfFuel => OutOfFuel
  end.

Declare Scope outcome_scope.
Delimit Scope outcome_scope with outcome.
Notation "x <- m ;; k" := (bind m (fun x => k))
  (at level 61, m at next level, right associativity) : outcome_scope.
Notation "' pat <- m ;; k" := (bind m (fun x => match x with pat => k end))
  (at level 61, pat pattern, m at next level, right associativity) : outcome_scope.
Local Open Scope outcome_scope.

(** [try { body } catch (json::exception ex) { handler }]: only the JSON
    library's exceptions are intercepted. *)
Definition try_catch_json {A} (body : outcome A) (handler : outcome A) : outcome A :=
  match body with
  | Throw (JsonException _) => handler
  | other => other
  end.

(** A loop that runs [f] on each element in order and [push_back]s the results;
    the first element that does not return ends the loop. *)
Definition for_each {A B} (f : A -> outcome B) : list A -> outcome (list B) :=
  fix loop (l : list A) : outcome (list B) :=
    match l with
    | [] => Ok []
    | a :: rest => b <- f a ;; bs <- loop rest ;; Ok (b :: bs)
    end.

(** ** std::vector and std::map *)

(** [v[i]] on a [std::vector]: no bounds check. *)
Definition vector_index {A} (v : list A) (i : nat) : outcome A :=
  match nth_error v i with
  | Some a => Ok a
  | None => Undefined (VectorOutOfRange i (List.length v))
  end.

(** [std::vector<T>(v.begin() + 1, v.end())]: the iterator [begin() + 1] only
    exists when the vector has an element. *)
Definition vector_from_second {A} (v : list A) : outcome (list A) :=
  match v with
  | [] => Undefined (VectorOutOfRange 1 0)
  | _ :: rest => Ok rest
  end.

(** [std::map<std::string, V>]: entries kept in ascending key order, where
    [std::string] compares bytes lexicographically. *)
Definition map_t (V : Type) : Type := list (string * V).

Fixpoint map_find {V} (key : string) (m : map_t V) : option V :=
  match m with
  | [] => None
  | (k, v) :: rest => if String.eqb key k then Some v else map_find key rest
  end.

(** [m[key] = v]: overwrite the entry, or insert it at its place in the order. *)
Fixpoint map_assign {V} (key : string) (v : V) (m : map_t V) : map_t V :=
  match m with
  | [] => [(key, v)]
  | (k, w) :: rest =>
      match String.compare key k with
      | Lt => (key, v) :: m
      | Eq => (key, v) :: rest
      | Gt => (k, w) :: map_assign key v rest
      end
  end.

Definition map_keys {V} (m : map_t V) : list string := map fst m.

Fixpoint ascending (keys : list string) : Prop :=
  match keys with
  | [] => True
  | k :: rest =>
      match rest with
      | [] => True
      | k' :: _ => String.compare k k' = Lt /\ ascending rest
      end
  end.

(** [k] sorts before the first of [keys]. *)
Definition below (k : string) (keys : list string) : Prop :=
  match keys with [] => True | k' :: _ => String.compare k k' = Lt end.

(** ** IEEE 754 binary64 *)

Definition double : Type := spec_float.

(** [static_cast<double>] of a 64-bit integer: round to nearest, ties to even. *)
Definition double_of_Z (n : Z) : double := binary_normalize 53 1024 n 0 false.

Module nlohmann.

(** Modelled from the spec: the document tree of null, boolean, number,
    string, array and object nodes that the external parser builds. The
    library header [json.hpp] is not among the sources; the tree has one
    constructor per [value_t] of [nlohmann::json], and each call below
    behaves as the library documents it. An object is a [std::map], so its
    members are kept by ascending key. *)
Unset Elimination Schemes.
Inductive json : Type :=
| JNull
| JObject (members : map_t json)
| JArray (elems : list json)
| JString (s : string)
| JBoolean (b : bool)
| JInteger (n : Z)      (* number_integer, int64_t *)
| JUnsigned (n : Z)     (* number_unsigned, uint64_t *)
| JFloat (d : double)   (* number_float *)
| JBinary (bytes : list Z)
| JDiscarded.
Set Elimination Schemes.

Definition is_string (j : json) : bool :=
  match j with JString _ => true | _ => false end.
Definition is_number (j : json) : bool :=
  match j with JInteger _ | JUnsigned _ | JFloat _ => true | _ => false end.
Definition is_boolean (j : json) : bool :=
  match j with JBoolean _ => true | _ => false end.
Definition is_array (j : json) : bool :=
  match j with JArray _ => true | _ => false end.
Definition is_object (j : json) : bool :=
  match j with JObject _ => true | _ => false end.

(** [get<std::string>()] and the implicit conversion to [std::string]. *)
Definition get_string (j : json) : outcome string :=
  match j with
  | JString s => Ok s
  | _ => Throw (JsonException type_error)
  end.

(** [get<double>()]: any of the three number types, nothing else. *)
Definition get_double (j : json) : outcome double :=
  match j with
  | JInteger n => Ok (double_of_Z n)
  | JUnsigned n => Ok (double_of_Z n)
  | JFloat d => Ok d
  | _ => Throw (JsonException type_error)
  end.

(** [get<bool>()]. *)
Definition get_bool (j : json) : outcome bool :=
  match j with
  | JBoolean b => Ok b
  | _ => Throw (JsonException type_error)
  end.

(** [j[key]] through a const reference: defined only on an object that has
    the key; any other object is outside the library's contract, and a value
    that is no object throws. *)
Definition index_const (j : json) (key : string) : outcome json :=
  match j with
  | JObject members =>
      match map_find key members with
      | Some v => Ok v
      | None => Undefined (AbsentKey key)
      end
  | _ => Throw (JsonException type_error)
  end.

(** [j[key]] on a non-const value: null first becomes an empty object, a
    missing key is inserted with a null value. Returns the value as it is
    after the call, and the element. *)
Definition index_mut (j : json) (key : string) : outcome (json * json) :=
  match j with
  | JNull => Ok (JObject [(key, JNull)], JNull)
  | JObject members =>
      match map_find key members with
      | Some v => Ok (j, v)
      | None => Ok (JObject (map_assign key JNull members), JNull)
      end
  | _ => Throw (JsonException type_error)
  end.

(** [j.at(i)] through a const reference. *)
Definition at_index (j : json) (i : nat) : outcome json :=
  match j with
  | JArray elems =>
      match nth_error elems i with
      | Some v => Ok v
      | None => Throw (JsonException out_of_range)
      end
  | _ => Throw (JsonException type_error)
  end.

(** [get<std::vector<T>>()], given the conversion to [T]. *)
Definition get_vector {T} (get_T : json -> outcome T) (j : json) : outcome (list T) :=
  match j with
  | JArray elems => for_each get_T elems
  | _ => Throw (JsonException type_error)
  end.

(** [get<std::pair<double,double>>()]: [{j.at(0).get<double>(), j.at(1).get<double>()}]. *)
Definition get_pair (j : json) : outcome (double * double) :=
  a <- at_index j 0 ;;
  first <- get_double a ;;
  b <- at_index j 1 ;;
  second <- get_double b ;;
  Ok (first, second).

(** The decimal text of an array index, as [items()] reports it. *)
Definition index_key (i : nat) : string := DecimalString.NilEmpty.string_of_uint (Nat.to_uint i).

Fixpoint enumerate_from (i : nat) (elems : list json) : list (string * json) :=
  match elems with
  | [] => []
  | e :: rest => (index_key i, e) :: enumerate_from (S i) rest
  end.

(** [for (auto el : j.items())]: the (key, value) pairs the loop visits. An
    array reports its indices as keys; a primitive value is visited once,
    under the empty key; null is not visited. *)
Definition items (j : json) : list (string * json) :=
  match j with
  | JNull => []
  | JObject members => members
  | JArray elems => enumerate_from 0 elems
  | _ => [("", j)]
  end.

(** [for (auto el : j)]: the values a range-for visits. *)
Definition elements (j : json) : list json := map snd (items j).

Fixpoint json_depth (j : json) : nat :=
  match j with
  | JArray elems => S (list_max (map json_depth elems))
  | JObject members => S (list_max (map (fun kv => json_depth (snd kv)) members))
  | _ => 0
  end.

End nlohmann.
Import nlohmann.

(** ** The geometry model

    The geometry engine is not part of the reader: the reader only calls the
    construction interface of [GeometryFactory]. Each geometry below is the
    record of the factory call that made it, with its arguments unchanged and
    unchecked. *)
Module geom.

(** Modelled from the spec: the [geos::geom] headers are not among the
    sources. A Coordinate is an ordered pair (x, y) of doubles. *)
Record Coordinate : Type := mkCoordinate { x : double; y : double }.

Definition CoordinateArraySequence : Type := list Coordinate.

(** Modelled from the spec: a LinearRing is an ordered sequence of
    Coordinates, used only as a polygon boundary. *)
Inductive LinearRing : Type :=
| mkLinearRing (points : CoordinateArraySequence).

(** Modelled from the spec: the closed variant set of section 3. A Point has
    zero or one Coordinate; a Polygon is empty or has an exterior ring and
    zero or more interior rings; the multi-part kinds and the collection are
    ordered sequences. *)
Unset Elimination Schemes.
Inductive Geometry : Type :=
| Point (coordinate : option Coordinate)
| LineString (points : CoordinateArraySequence)
| Polygon (shell : option LinearRing) (holes : list LinearRing)
| MultiPoint (points : CoordinateArraySequence)
| MultiLineString (lines : list Geometry)
| MultiPolygon (polygons : list Geometry)
| GeometryCollection (geometries : list Geometry).
Set Elimination Schemes.

(** [createPoint(dim)] and [createPolygon(dim)] make empty geometries. *)
Definition createPoint_empty (dim : nat) : Geometry := Point None.
Definition createPoint (c : Coordinate) : Geometry := Point (Some c).
Definition createLineString (cs : CoordinateArraySequence) : Geometry := LineString cs.
Definition createLinearRing (cs : CoordinateArraySequence) : LinearRing := mkLinearRing cs.
Definition createPolygon_empty (dim : nat) : Geometry := Polygon None [].
(** [createPolygon(shell, holes)]: a null [holes] pointer stands for no holes. *)
Definition createPolygon (shell : LinearRing) (holes : option (list LinearRing)) : Geometry :=
  Polygon (Some shell) (match holes with Some hs => hs | None => [] end).
Definition createMultiPoint (cs : CoordinateArraySequence) : Geometry := MultiPoint cs.
Definition createMultiLineString (lines : list Geometry) : Geometry := MultiLineString lines.
Definition createMultiPolygon (polygons : list Geometry) : Geometry := MultiPolygon polygons.
Definition createGeometryCollection (gs : list Geometry) : Geometry := GeometryCollection gs.

(** Observers of a polygon, as [geom::Polygon] offers them. *)
Definition getExteriorRing (g : Geometry) : option LinearRing :=
  match g with Polygon shell _ => shell | _ => None end.
Definition getInteriorRings (g : Geometry) : list LinearRing :=
  match g with Polygon _ holes => holes | _ => [] end.
Definition getNumInteriorRing (g : Geometry) : nat := List.length (getInteriorRings g).
Definition getInteriorRingN (g : Geometry) (n : nat) : option LinearRing :=
  nth_error (getInteriorRings g) n.
Definition isEmptyPolygon (g : Geometry) : bool :=
  match g with Polygon None [] => true | _ => false end.
Definition getCoordinates (r : LinearRing) : CoordinateArraySequence :=
  match r with mkLinearRing points => points end.

End geom.
Import geom.

(** ** The reader *)
Module GeoJSONReader.

(** Modelled from the spec: [GeoJSONValue], whose header is not among the
    sources, is a tagged variant Null, Boolean, Number (double), String,
    Sequence, Mapping; the Mapping is the [std::map<std::string, GeoJSONValue>]
    the reader returns. *)
Unset Elimination Schemes.
Inductive GeoJSONValue : Type :=
| VNull
| VNumber (d : double)
| VString (s : string)
| VBoolean (b : bool)
| VMapping (o : map_t GeoJSONValue)
| VSequence (a : list GeoJSONValue).
Set Elimination Schemes.

(** Modelled from the spec: a Feature is a Geometry with the Mapping of its
    properties, a FeatureCollection an ordered sequence of Features. *)
Record GeoJSONFeature : Type := mkFeature {
  geometry : Geometry;
  properties : map_t GeoJSONValue
}.

Record GeoJSONFeatureCollection : Type := mkFeatureCollection {
  features : list GeoJSONFeature
}.

(** [for (el : items) v[el.key()] = f(el.value());] starting from the map
    [acc]. *)
Definition assign_each {A V} (f : A -> outcome V)
  : list (string * A) -> map_t V -> outcome (map_t V) :=
  fix loop (l : list (string * A)) (acc : map_t V) : outcome (map_t V) :=
    match l with
    | [] => Ok acc
    | (key, a) :: rest => v <- f a ;; loop rest (map_assign key v acc)
    end.

Fixpoint readProperty (value : json) : outcome GeoJSONValue :=
  if is_string value then
    s <- get_string value ;; Ok (VString s)
  else if is_number value then
    d <- get_double value ;; Ok (VNumber d)
  else if is_boolean value then
    b <- get_bool value ;; Ok (VBoolean b)
  else if is_array value then
    match value with
    | JArray elems => v <- for_each readProperty elems ;; Ok (VSequence v)
    | _ => Ok (VSequence [])
    end
  else if is_object value then
    match value with
    | JObject members => v <- assign_each readProperty members [] ;; Ok (VMapping v)
    | _ => Ok (VMapping [])
    end
  else
    Ok VNull.

Definition readProperties (p : json) : outcome (map_t GeoJSONValue) :=
  assign_each readProperty (items p) [].

Definition to_coordinates (coords : list (double * double)) : list Coordinate :=
  map (fun coord => mkCoordinate (fst coord) (snd coord)) coords.

Definition readPoint (j : json) : outcome Geometry :=
  c <- index_const j "coordinates" ;;
  coords <- get_vector get_double c ;;
  if Nat.eqb (List.length coords) 1 then
    Throw (ParseException "Expected two coordinates found one")
  else if Nat.ltb (List.length coords) 2 then
    Ok (createPoint_empty 2)
  else
    c0 <- vector_index coords 0 ;;
    c1 <- vector_index coords 1 ;;
    Ok (createPoint (mkCoordinate c0 c1)).

Definition readLineString (j : json) : outcome Geometry :=
  c <- index_const j "coordinates" ;;
  coords <- get_vector get_pair c ;;
  Ok (createLineString (to_coordinates coords)).

Definition readPolygon (j : json) : outcome Geometry :=
  c <- index_const j "coordinates" ;;
  polygonCoords <- get_vector (get_vector get_pair) c ;;
  let rings := map (fun ring => createLinearRing (to_coordinates ring)) polygonCoords in
  if Nat.eqb (List.length rings) 0 then
    Ok (createPolygon_empty 2)
  else if Nat.eqb (List.length rings) 1 then
    outerRing <- vector_index rings 0 ;;
    Ok (createPolygon outerRing None)
  else
    outerRing <- vector_index rings 0 ;;
    innerRings <- vector_from_second rings ;;
    Ok (createPolygon outerRing (Some innerRings)).

Definition readMultiPoint (j : json) : outcome Geometry :=
  c <- index_const j "coordinates" ;;
  coords <- get_vector get_pair c ;;
  Ok (createMultiPoint (to_coordinates coords)).

Definition readMultiLineString (j : json) : outcome Geometry :=
  c <- index_const j "coordinates" ;;
  listOfCoords <- get_vector (get_vector get_pair) c ;;
  Ok (createMultiLineString
        (map (fun coords => createLineString (to_coordinates coords)) listOfCoords)).

(** The body of the loop over [multiPolygonCoords]: one polygon. *)
Definition readMultiPolygon_element (polygonCoords : list (list (double * double)))
  : outcome Geometry :=
  let rings := map (fun ring => createLinearRing (to_coordinates ring)) polygonCoords in
  if Nat.eqb (List.length rings) 1 then
    outerRing <- vector_index rings 0 ;;
    Ok (createPolygon outerRing None)
  else
    outerRing <- vector_index rings 0 ;;
    innerRings <- vector_from_second rings ;;
    Ok (createPolygon outerRing (Some innerRings)).

Definition readMultiPolygon (j : json) : outcome Geometry :=
  c <- index_const j "coordinates" ;;
  multiPolygonCoords <- get_vector (get_vector (get_vector get_pair)) c ;;
  polygons <- for_each readMultiPolygon_element multiPolygonCoords ;;
  Ok (createMultiPolygon polygons).

(** [readGeometryCollection] and [readGeometry] call each other; [self] is
    the call back into [readGeometry]. *)
Definition readGeometryCollection (self : json -> outcome Geometry) (j : json)
  : outcome Geometry :=
  jsonGeometries <- index_const j "geometries" ;;
  geometries <- for_each self (elements jsonGeometries) ;;
  Ok (createGeometryCollection geometries).

Definition readGeometry_body (self : json -> outcome Geometry) (j : json)
  : outcome Geometry :=
  t <- index_const j "type" ;;
  type <- get_string t ;;
  if type =? "Point" then readPoint j
  else if type =? "LineString" then readLineString j
  else if type =? "Polygon" then readPolygon j
  else if type =? "MultiPoint" then readMultiPoint j
  else if type =? "MultiLineString" then readMultiLineString j
  else if type =? "MultiPolygon" then readMultiPolygon j
  else if type =? "GeometryCollection" then readGeometryCollection self j
  else Throw (ParseException "Unknown geometry type!").

(** The recursion goes through a key lookup, so it is bounded by a call
    budget; [readGeometry] gives a node a budget above its depth, which
    [readGeometry_unfold] shows is never used up. *)
Fixpoint readGeometry_fuel (fuel : nat) (j : json) : outcome Geometry :=
  match fuel with
  | O => OutOfFuel
  | S fuel' => readGeometry_body (readGeometry_fuel fuel') j
  end.

Definition readGeometry (j : json) : outcome Geometry :=
  readGeometry_fuel (S (json_depth j)) j.

Definition readFeatureForGeometry (j : json) : outcome Geometry :=
  geometryJson <- index_const j "geometry" ;;
  readGeometry geometryJson.

Definition readFeature (j : json) : outcome GeoJSONFeature :=
  geometryJson <- index_const j "geometry" ;;
  geometry <- readGeometry geometryJson ;;
  properties <- index_const j "properties" ;;
  map <- readProperties properties ;;
  Ok (mkFeature geometry map).

Definition readFeatureCollectionForGeometry (j : json) : outcome Geometry :=
  featuresJson <- index_const j "features" ;;
  geometries <- for_each readFeatureForGeometry (elements featuresJson) ;;
  Ok (createGeometryCollection geometries).

Definition readFeatureCollection (j : json) : outcome GeoJSONFeatureCollection :=
  featuresJson <- index_const j "features" ;;
  features <- for_each readFeature (elements featuresJson) ;;
  Ok (mkFeatureCollection features).

Section EntryPoints.

(** [json::parse]: the text parser of the JSON library, which either builds
    a tree or throws [parse_error] with the byte offset and a description. *)
Variable json_parse : string -> json + (nat * string).

Definition parse (text : string) : outcome json :=
  match json_parse text with
  | inl j => Ok j
  | inr (byte, what) => Throw (JsonException (parse_error byte what))
  end.

Definition read (geoJsonText : string) : outcome Geometry :=
  try_catch_json
    (j <- parse geoJsonText ;;
     ' (j, t) <- index_mut j "type" ;;
     type <- get_string t ;;
     if type =? "Feature" then readFeatureForGeometry j
     else if type =? "FeatureCollection" then readFeatureCollectionForGeometry j
     else readGeometry j)
    (Throw (ParseException "Error parsing JSON")).

Definition readFeatures (geoJsonText : string) : outcome GeoJSONFeatureCollection :=
  try_catch_json
    (j <- parse geoJsonText ;;
     ' (j, t) <- index_mut j "type" ;;
     type <- get_string t ;;
     if type =? "Feature" then
       feature <- readFeature j ;;
       Ok (mkFeatureCollection [feature])
     else if type =? "FeatureCollection" then readFeatureCollection j
     else
       g <- readGeometry j ;;
       Ok (mkFeatureCollection [mkFeature g []]))
    (Throw (ParseException "Error parsing JSON")).

End EntryPoints.

End GeoJSONReader.
Import GeoJSONReader.

(** ** Vocabulary of the specification *)

(** The source text of an object lists its members in some order and may
    repeat a key. The JSON library's tree builder stores each member in turn
    with [object[key] = value], so the tree holds them as a [std::map]. *)
Definition map_of_list {V} (l : list (string * V)) : map_t V :=
  fold_left (fun m kv => map_assign (fst kv) (snd kv) m) l [].

Definition object_of_members (members : list (string * json)) : json :=
  JObject (map_of_list members).

(** The member a key denotes when the last occurrence wins. *)
Definition last_occurrence {V} (key : string) (l : list (string * V)) : option V :=
  map_find key (List.rev l).

(** The value decoder as section 4.1 words it: a total function on nodes
    that goes by the type of the node and recurses into array elements and
    object values. A Mapping is held the way the reader holds it. *)
Fixpoint decodeValue (node : json) : GeoJSONValue :=
  match node with
  | JString s => VString s
  | JInteger n => VNumber (double_of_Z n)
  | JUnsigned n => VNumber (double_of_Z n)
  | JFloat d => VNumber d
  | JBoolean b => VBoolean b
  | JArray elems => VSequence (map decodeValue elems)
  | JObject members =>
      VMapping (map_of_list (map (fun kv => (fst kv, decodeValue (snd kv))) members))
  | _ => VNull
  end.

(** The tag of a property value. *)
Inductive tag : Type := TNull | TBoolean | TNumber | TString | TSequence | TMapping.

Definition tag_of (v : GeoJSONValue) : tag :=
  match v with
  | VNull => TNull
  | VNumber _ => TNumber
  | VString _ => TString
  | VBoolean _ => TBoolean
  | VMapping _ => TMapping
  | VSequence _ => TSequence
  end.

(** The tag the priority order string, number, boolean, array, object, else
    Null assigns to a node. *)
Definition priority_tag (node : json) : tag :=
  if is_string node then TString
  else if is_number node then TNumber
  else if is_boolean node then TBoolean
  else if is_array node then TSequence
  else if is_object node then TMapping
  else TNull.

(** The two error kinds of section 7. The reader has one exception class,
    [ParseException]; the kinds differ by where it is thrown and with which
    text. The catch clauses of the entry points throw the fixed text below;
    the geometry decoder throws its own two messages. *)
Definition error_parsing_json : exn := ParseException "Error parsing JSON".

Definition MalformedDocument (e : exn) : Prop := e = error_parsing_json.

Definition MalformedGeometry (e : exn) : Prop :=
  e = ParseException "Unknown geometry type!" \/
  e = ParseException "Expected two coordinates found one".

(** The coordinate-bearing kinds and the names they are declared by. *)
Inductive kind : Type :=
| KPoint | KLineString | KPolygon | KMultiPoint | KMultiLineString | KMultiPolygon.

Definition kind_name (k : kind) : string :=
  match k with
  | KPoint => "Point"
  | KLineString => "LineString"
  | KPolygon => "Polygon"
  | KMultiPoint => "MultiPoint"
  | KMultiLineString => "MultiLineString"
  | KMultiPolygon => "MultiPolygon"
  end.

(** The seven names of the dispatch table. *)
Definition geometry_kinds : list string :=
  ["Point"; "LineString"; "Polygon"; "MultiPoint"; "MultiLineString";
   "MultiPolygon"; "GeometryCollection"].

Definition is_geometry_kind (type : string) : bool :=
  existsb (String.eqb type) geometry_kinds.

(** The shape a "coordinates" value must have: a leaf pair is an array that
    starts with two numbers; the kinds nest arrays of pairs to their depth.
    A Point's value is an array of numbers. *)
Definition shaped_pair (j : json) : bool :=
  match j with
  | JArray (a :: b :: _) => is_number a && is_number b
  | _ => false
  end.

Definition shaped_array (elem : json -> bool) (j : json) : bool :=
  match j with
  | JArray elems => forallb elem elems
  | _ => false
  end.

Definition shaped (k : kind) (c : json) : bool :=
  match k with
  | KPoint => shaped_array is_number c
  | KLineString | KMultiPoint => shaped_array shaped_pair c
  | KPolygon | KMultiLineString => shaped_array (shaped_array shaped_pair) c
  | KMultiPolygon => shaped_array (shaped_array (shaped_array shaped_pair)) c
  end.

(** The value of a numeric node as a double, and the pair and ring a
    well-shaped node denotes. *)
Definition ordinate (j : json) : double :=
  match j with
  | JInteger n => double_of_Z n
  | JUnsigned n => double_of_Z n
  | JFloat d => d
  | _ => S754_zero false
  end.

Definition array_elems (j : json) : list json :=
  match j with JArray elems => elems | _ => [] end.

Definition pair_of (p : json) : Coordinate :=
  match p with
  | JArray (a :: b :: _) => mkCoordinate (ordinate a) (ordinate b)
  | _ => mkCoordinate (S754_zero false) (S754_zero false)
  end.

Definition ring_of (r : json) : LinearRing :=
  mkLinearRing (map pair_of (array_elems r)).

(** The vector of pairs a well-shaped ring or line node converts to. *)
Definition pairs_of (r : json) : list (double * double) :=
  map (fun p => (x (pair_of p), y (pair_of p))) (array_elems r).

(** The geometry a well-shaped "coordinates" value denotes for its kind:
    every leaf pair contributes its first two values, in document order. *)
Definition line_of (r : json) : Geometry :=
  LineString (map pair_of (array_elems r)).

Definition polygon_of (q : json) : Geometry :=
  match map ring_of (array_elems q) with
  | [] => Polygon None []
  | shell :: holes => Polygon (Some shell) holes
  end.

Definition point_of (c : json) : Geometry :=
  match array_elems c with
  | a :: b :: _ => Point (Some (mkCoordinate (ordinate a) (ordinate b)))
  | _ => Point None
  end.

Definition geometry_of (k : kind) (c : json) : Geometry :=
  match k with
  | KPoint => point_of c
  | KLineString => line_of c
  | KPolygon => polygon_of c
  | KMultiPoint => MultiPoint (map pair_of (array_elems c))
  | KMultiLineString => MultiLineString (map line_of (array_elems c))
  | KMultiPolygon => MultiPolygon (map polygon_of (array_elems c))
  end.

(** The inputs on which the decoder of a kind has a branch: a Point with one
    ordinate is rejected, and a polygon of a MultiPolygon needs a ring. *)
Definition in_domain (k : kind) (c : json) : Prop :=
  match k with
  | KPoint => List.length (array_elems c) <> 1
  | KMultiPolygon => Forall (fun q => array_elems q <> []) (array_elems c)
  | _ => True
  end.

(** A leaf pair [p] of a "coordinates" value [c], for the kinds that hold
    pairs. *)
Definition leaf_of (k : kind) (p c : json) : Prop :=
  match k with
  | KPoint => False
  | KLineString | KMultiPoint => In p (array_elems c)
  | KPolygon | KMultiLineString =>
      exists r, In r (array_elems c) /\ In p (array_elems r)
  | KMultiPolygon =>
      exists q r, In q (array_elems c) /\ In r (array_elems q) /\ In p (array_elems r)
  end.

(** Whether the outer node has a "type" key. *)
Definition has_type_key (j : json) : bool :=
  match j with
  | JObject members =>
      match map_find "type" members with Some _ => true | None => false end
  | _ => false
  end.

(** A primitive value that is not null: what [items()] visits once. *)
Definition is_scalar (j : json) : bool :=
  match j with
  | JNull | JObject _ | JArray _ => false
  | _ => true
  end.

(** A conversion [get] agrees with a shape test when it returns on the nodes
    of that shape and throws a JSON library exception on all others. *)
Definition converts {T} (get : json -> outcome T) (shape : json -> bool) : Prop :=
  forall j,
    if shape j then exists v, get j = Ok v
    else exists e, get j = Throw (JsonException e).

(** ** More vocabulary: kinds of results and declared types *)

(** Modelled from the spec: [Geometry::getGeometryType], which is not among
    the sources, names the kind of a geometry by the seven kind names. *)
Definition getGeometryType (g : Geometry) : string :=
  match g with
  | Point _ => "Point"
  | LineString _ => "LineString"
  | Polygon _ _ => "Polygon"
  | MultiPoint _ => "MultiPoint"
  | MultiLineString _ => "MultiLineString"
  | MultiPolygon _ => "MultiPolygon"
  | GeometryCollection _ => "GeometryCollection"
  end.

(** The string a node declares under "type", when it is an object that has
    one. *)
Definition declared_type (j : json) : option string :=
  match j with
  | JObject members =>
      match map_find "type" members with
      | Some (JString type) => Some type
      | _ => None
      end
  | _ => None
  end.

(** The field a geometry kind reads its content from. *)
Definition required_field (type : string) : string :=
  if type =? "GeometryCollection" then "geometries" else "coordinates".

(** The single geometry that stands for a feature collection decoded from a
    document declaring [type]. *)
Definition collapse (type : string) (fc : GeoJSONFeatureCollection) : Geometry :=
  if type =? "FeatureCollection" then
    createGeometryCollection (map geometry (features fc))
  else
    match features fc with
    | feature :: _ => geometry feature
    | [] => createGeometryCollection []
    end.

(** ** The registry of geometry functions ([GeomFunction.cpp]) *)

(** [m.insert({key, v})] on a [std::map]: an entry that is there stays. *)
Fixpoint map_insert {V} (key : string) (v : V) (m : map_t V) : map_t V :=
  match m with
  | [] => [(key, v)]
  | (k, w) :: rest =>
      match String.compare key k with
      | Lt => (key, v) :: m
      | Eq => m
      | Gt => (k, w) :: map_insert key v rest
      end
  end.

(** [m.count(key)]. *)
Definition map_count {V} (key : string) (m : map_t V) : nat :=
  match map_find key m with Some _ => 1 | None => 0 end.

Module GeomFunction.

Section Registry.

(** [geomFunSig], the type of the functions that call into the geometry
    engine; they are stored and handed back, never inspected. *)
Variable geomFunSig : Type.

Record GeomFunction : Type := mkGeomFunction {
  funName : string;
  description : string;
  geomfun : geomFunSig;
  numGeomParam : Z;
  numParam : Z
}.

(** The static [registry], passed explicitly. *)
Definition registry_t : Type := map_t GeomFunction.

(** [find]: a null pointer is [None]. *)
Definition find (name : string) (registry : registry_t) : option GeomFunction :=
  if Nat.eqb (map_count name registry) 0 then None
  else map_find name registry.

(** The [add] with five arguments. *)
Definition add5 (name desc : string) (nGeomParam nParam : Z) (geomfun : geomFunSig)
           (registry : registry_t) : registry_t :=
  let fun_ := mkGeomFunction name desc geomfun nGeomParam nParam in
  map_insert name fun_ registry.

(** The [add] with two arguments. *)
Definition add3 (name : string) (geomfun : geomFunSig) (registry : registry_t)
  : registry_t :=
  add5 name (String.append "computes " (String.append name " for geometry A"))
       1 0 geomfun registry.

Definition name (f : GeomFunction) : string := funName f.

Definition isBinary (f : GeomFunction) : bool := Z.eqb (numGeomParam f) 2.

Definition signature (f : GeomFunction) : string :=
  let sig := String.append (funName f) " A" in
  let sig := if isBinary f then String.append sig " B" else sig in
  if Z.ltb 0 (numParam f) then String.append sig " N" else sig.

Definition list (registry : registry_t) : list string :=
  map (fun entry =>
         String.append (signature (snd entry))
                       (String.append " - " (description (snd entry))))
      registry.

(** One call of [add] in [init]. *)
Inductive call : Type :=
| Add3 (name : string) (geomfun : geomFunSig)
| Add5 (name desc : string) (nGeomParam nParam : Z) (geomfun : geomFunSig).

Definition run_call (c : call) (registry : registry_t) : registry_t :=
  match c with
  | Add3 name geomfun => add3 name geomfun registry
  | Add5 name desc nGeomParam nParam geomfun =>
      add5 name desc nGeomParam nParam geomfun registry
  end.

Definition call_name (c : call) : string :=
  match c with
  | Add3 name _ => name
  | Add5 name _ _ _ _ => name
  end.

Definition call_geomfun (c : call) : geomFunSig :=
  match c with
  | Add3 _ geomfun => geomfun
  | Add5 _ _ _ _ geomfun => geomfun
  end.

(** [lambda i] is the [i]-th lambda expression of [init], in text order. *)
Variable lambda : nat -> geomFunSig.

(** The calls of [init], in text order. *)
Definition init_calls : Datatypes.list call :=
  [
   Add3 "area" (lambda 0);
   Add3 "boundary" (lambda 1);
   Add5 "buffer"
        "cmputes the buffer of geometry A" 1 1 (lambda 2);
   Add3 "centroid" (lambda 3);
   Add3 "copy" (lambda 4);
   Add3 "convexHull" (lambda 5);
   Add5 "contains"
        "tests if geometry A contains geometry B" 2 0 (lambda 6);
   Add5 "covers"
        "tests if geometry A covers geometry B" 2 0 (lambda 7);
   Add5 "distance"
        "computes distance between geometry A and B" 2 0 (lambda 8);
   Add3 "envelope" (lambda 9);
   Add3 "interiorPoint" (lambda 10);
   Add5 "intersects"
        "tests if geometry A and B intersect" 2 0 (lambda 11);
   Add5 "isSimple"
        "tests if geometry A is simple" 1 0 (lambda 12);
   Add5 "isValid"
        "tests if geometry A is valid" 1 0 (lambda 13);
   Add3 "length" (lambda 14);
   Add3 "makeValid" (lambda 15);
   Add5 "maxInscribedCircle"
        "computes maximum inscribed circle radius of Polygon A up to a distance tolerance" 2 0 (lambda 16);
   Add3 "minBoundingCircle" (lambda 17);
   Add5 "nearestPoints"
        "computes nearest points of geometry A and B" 2 0 (lambda 18);
   Add5 "delaunay"
        "computes the Delaunay Triangulation of geometry A vertices" 1 0 (lambda 19);
   Add5 "voronoi"
        "computes the Voronoi Diagram of geometry A vertices" 1 0 (lambda 20);
   Add3 "polygonize" (lambda 21);
   Add5 "reverse"
        "reverses geometry A" 1 0 (lambda 22);
   Add5 "containsPrep"
        "tests if geometry A contains geometry B, using PreparedGeometry" 2 0 (lambda 23);
   Add5 "containsProperlyPrep"
        "tests if geometry A properly contains geometry B using PreparedGeometry" 2 0 (lambda 24);
   Add5 "coversPrep"
        "tests if geometry A covers geometry B using PreparedGeometry" 2 0 (lambda 25);
   Add5 "intersectsPrep"
        "tests if geometry A intersects B using PreparedGeometry" 2 0 (lambda 26);
   Add5 "distancePrep"
        "computes distance between geometry A and B using PreparedGeometry" 2 0 (lambda 27);
   Add5 "nearestPointsPrep"
        "computes nearest points of geometry A and B using PreparedGeometry" 2 0 (lambda 28);
   Add5 "reducePrecision"
        "reduces precision of geometry to a precision scale factor" 1 1 (lambda 29);
   Add5 "relate"
        "computes DE-9IM matrix for geometry A and B" 2 0 (lambda 30);
   Add5 "difference"
        "computes difference of geometry A from B" 2 0 (lambda 31);
   Add5 "intersection"
        "computes intersection of geometry A and B" 2 0 (lambda 32);
   Add5 "symDifference"
        "computes symmetric difference of geometry A and B" 2 0 (lambda 33);
   Add3 "unaryUnion" (lambda 34);
   Add5 "union"
        "computes union of geometry A and B" 2 0 (lambda 35);
   Add5 "differenceSR"
        "computes difference of geometry A from B, snap-rounding to a precision scale factor" 2 1 (lambda 36);
   Add5 "intersectionSR"
        "computes intersection of geometry A and B, snap-rounding to a precision scale factor" 2 1 (lambda 37);
   Add5 "symDifferenceSR"
        "computes symmetric difference of geometry A and B, snap-rounding to a precision scale factor" 2 1 (lambda 38);
   Add5 "unionSR"
        "computes union of geometry A and B, snap-rounding to a precision scale factor" 2 1 (lambda 39)
  ].

Definition init (registry : registry_t) : registry_t :=
  fold_left (fun r c => run_call c r) init_calls registry.

(** What a registry built by [add] keeps: names in ascending order, and
    every function filed under its own name. *)
Definition well_formed (registry : registry_t) : Prop :=
  ascending (map_keys registry) /\
  Forall (fun entry => funName (snd entry) = fst entry) registry.

End Registry.

Arguments funName {geomFunSig} _.
Arguments description {geomFunSig} _.
Arguments geomfun {geomFunSig} _.
Arguments numGeomParam {geomFunSig} _.
Arguments numParam {geomFunSig} _.
Arguments mkGeomFunction {geomFunSig} _ _ _ _ _.
Arguments find {geomFunSig} _ _.
Arguments add5 {geomFunSig} _ _ _ _ _ _.
Arguments add3 {geomFunSig} _ _ _.
Arguments name {geomFunSig} _.
Arguments isBinary {geomFunSig} _.
Arguments signature {geomFunSig} _.
Arguments list {geomFunSig} _.
Arguments Add3 {geomFunSig} _ _.
Arguments Add5 {geomFunSig} _ _ _ _ _.
Arguments run_call {geomFunSig} _ _.
Arguments call_name {geomFunSig} _.
Arguments call_geomfun {geomFunSig} _.
Arguments init_calls {geomFunSig} _.
Arguments init {geomFunSig} _ _.
Arguments well_formed {geomFunSig} _.

End GeomFunction.

(** ** Induction on the document tree *)

Section json_induction.
Variable P : json -> Prop.
Hypothesis Hnull : P JNull.
Hypothesis Hobject : forall members, Forall (fun kv => P (snd kv)) members -> P (JObject members).
Hypothesis Harray : forall elems, Forall P elems -> P (JArray elems).
Hypothesis Hstring : forall s, P (JString s).
Hypothesis Hboolean : forall b, P (JBoolean b).
Hypothesis Hinteger : forall n, P (JInteger n).
Hypothesis Hunsigned : forall n, P (JUnsigned n).
Hypothesis Hfloat : forall d, P (JFloat d).
Hypothesis Hbinary : forall bytes, P (JBinary bytes).
Hypothesis Hdiscarded : P JDiscarded.

Fixpoint json_ind (j : json) : P j :=
  match j with
  | JNull => Hnull
  | JObject members =>
      Hobject members
        ((fix members_ind (l : list (string * json)) : Forall (fun kv => P (snd kv)) l :=
            match l with
            | [] => Forall_nil _
            | kv :: rest => Forall_cons kv (json_ind (snd kv)) (members_ind rest)
            end) members)
  | JArray elems =>
      Harray elems
        ((fix elems_ind (l : list json) : Forall P l :=
            match l with
            | [] => Forall_nil _
            | e :: rest => Forall_cons e (json_ind e) (elems_ind rest)
            end) elems)
  | JString s => Hstring s
  | JBoolean b => Hboolean b
  | JInteger n => Hinteger n
  | JUnsigned n => Hunsigned n
  | JFloat d => Hfloat d
  | JBinary bytes => Hbinary bytes
  | JDiscarded => Hdiscarded
  end.
End json_induction.

(** ** The value decoder *)

Lemma for_each_map {A B} (f : A -> outcome B) (g : A -> B) (l : list A) :
  Forall (fun a => f a = Ok (g a)) l -> for_each f l = Ok (map g l).
Proof.
  induction 1 as [|a rest Ha _ IH]; simpl.
  - reflexivity.
  - rewrite Ha; simpl. rewrite IH; reflexivity.
Qed.

Lemma assign_each_fold {A V} (f : A -> outcome V) (g : A -> V) (l : list (string * A)) :
  Forall (fun kv => f (snd kv) = Ok (g (snd kv))) l ->
  forall acc,
    assign_each f l acc
    = Ok (fold_left (fun m kv => map_assign (fst kv) (snd kv) m)
            (map (fun kv => (fst kv, g (snd kv))) l) acc).
Proof.
  induction 1 as [|[k a] rest Ha _ IH]; intros acc; simpl.
  - reflexivity.
  - simpl in Ha. rewrite Ha; simpl. apply IH.
Qed.

Lemma readProperty_decodeValue (value : json) :
  readProperty value = Ok (decodeValue value).
Proof.
  induction value using json_ind; try reflexivity.
  - simpl. rewrite (assign_each_fold readProperty decodeValue members H). reflexivity.
  - simpl. rewrite (for_each_map readProperty decodeValue elems H). reflexivity.
Qed.

Lemma tag_decodeValue (value : json) : tag_of (decodeValue value) = priority_tag value.
Proof. destruct value; reflexivity. Qed.

(** C8. The value decoder never fails: on every node [readProperty] returns
    a tagged value, the one the specification's [decodeValue] describes; its
    tag follows the priority order string, number, boolean, array, object,
    else Null, so that a node of no supported type gives Null, and every
    number gives a Number holding a double. *)
Theorem readProperty_total (value : json) :
  (exists v, readProperty value = Ok v /\ v = decodeValue value /\
             tag_of v = priority_tag value) /\
  (is_string value = false -> is_number value = false -> is_boolean value = false ->
   is_array value = false -> is_object value = false ->
   readProperty value = Ok VNull) /\
  (is_number value = true ->
   exists d : double, get_double value = Ok d /\ readProperty value = Ok (VNumber d)).
Proof.
  split; [|split].
  - exists (decodeValue value). split; [apply readProperty_decodeValue|].
    split; [reflexivity | apply tag_decodeValue].
  - intros Hs Hn Hb Ha Ho. destruct value; simpl in *; try discriminate; reflexivity.
  - intros Hn. destruct value; simpl in Hn; try discriminate.
    + exists (double_of_Z n); split; reflexivity.
    + exists (double_of_Z n); split; reflexivity.
    + exists d; split; reflexivity.
Qed.

Lemma readProperty_total_witness :
  readProperty (JBinary [1%Z; 2%Z]) = Ok VNull /\
  exists d, readProperty (JUnsigned 7) = Ok (VNumber d).
Proof.
  destruct (readProperty_total (JBinary [1%Z; 2%Z])) as [_ [Hnull _]].
  destruct (readProperty_total (JUnsigned 7)) as [_ [_ Hnum]].
  split.
  - exact (Hnull eq_refl eq_refl eq_refl eq_refl eq_refl).
  - destruct (Hnum eq_refl) as [d [_ Hd]]. exists d. exact Hd.
Defined.

(** ** The order of [std::string] keys *)

Lemma compare_as_OT (a b : string) : String.compare a b = OrdersEx.String_as_OT.compare a b.
Proof.
  revert b; induction a as [|c a IH]; intros [|d b]; reflexivity.
Qed.

Lemma compare_refl (a : string) : String.compare a a = Eq.
Proof.
  pose proof (String.compare_antisym a a) as H.
  destruct (String.compare a a); simpl in H; congruence.
Qed.

Lemma compare_lt_trans (a b c : string) :
  String.compare a b = Lt -> String.compare b c = Lt -> String.compare a c = Lt.
Proof.
  rewrite !compare_as_OT.
  apply (@RelationClasses.StrictOrder_Transitive _ _ OrdersEx.String_as_OT.lt_strorder).
Qed.

Lemma compare_gt_lt (a b : string) : String.compare a b = Gt -> String.compare b a = Lt.
Proof.
  intros H. rewrite String.compare_antisym, H. reflexivity.
Qed.

Lemma compare_neq (a b : string) : String.compare a b <> Eq -> (a =? b) = false.
Proof.
  intros H. apply String.eqb_neq. intros ->. apply H, compare_refl.
Qed.

(** ** Lookup and assignment in a [std::map] *)

Section map_facts.
Context {V : Type}.
Implicit Types (m : map_t V) (k key : string) (v : V).

Lemma map_find_assign k key v m :
  map_find k (map_assign key v m) = if k =? key then Some v else map_find k m.
Proof.
  induction m as [|[k0 w] rest IH]; simpl.
  - reflexivity.
  - destruct (String.compare key k0) eqn:Hc; simpl.
    + apply String.compare_eq_iff in Hc; subst k0.
      destruct (k =? key); reflexivity.
    + reflexivity.
    + rewrite IH.
      destruct (k =? k0) eqn:Hk0; [|reflexivity].
      apply String.eqb_eq in Hk0; subst k0.
      rewrite (String.eqb_sym k key), (compare_neq key k) by congruence.
      reflexivity.
Qed.

Lemma map_find_app k (l1 l2 : map_t V) :
  map_find k (l1 ++ l2)
  = match map_find k l1 with Some v => Some v | None => map_find k l2 end.
Proof.
  induction l1 as [|[k0 w] rest IH]; simpl; [reflexivity|].
  destruct (k =? k0); [reflexivity | apply IH].
Qed.

Lemma map_find_fold k (l : list (string * V)) : forall acc,
  map_find k (fold_left (fun m kv => map_assign (fst kv) (snd kv) m) l acc)
  = match last_occurrence k l with Some v => Some v | None => map_find k acc end.
Proof.
  unfold last_occurrence.
  induction l as [|[k0 w] rest IH]; intros acc; simpl; [reflexivity|].
  rewrite IH, map_find_app, map_find_assign; simpl.
  destruct (map_find k (List.rev rest)); [reflexivity|].
  destruct (k =? k0); reflexivity.
Qed.

(** Building a map from a member list: the last occurrence of a key wins. *)
Lemma map_find_of_list k (l : list (string * V)) :
  map_find k (map_of_list l) = last_occurrence k l.
Proof.
  unfold map_of_list. rewrite map_find_fold.
  destruct (last_occurrence k l); reflexivity.
Qed.

Lemma map_find_None k m : ~ In k (map_keys m) -> map_find k m = None.
Proof.
  induction m as [|[k0 w] rest IH]; simpl; intros Hn; [reflexivity|].
  destruct (k =? k0) eqn:E.
  - apply String.eqb_eq in E. exfalso; apply Hn; left; congruence.
  - apply IH. intros Hin; apply Hn; right; exact Hin.
Qed.

(** With distinct keys the direction of the search does not matter. *)
Lemma last_occurrence_NoDup k m :
  NoDup (map_keys m) -> last_occurrence k m = map_find k m.
Proof.
  unfold last_occurrence.
  induction m as [|[k0 w] rest IH]; simpl; intros Hnd; [reflexivity|].
  inversion Hnd as [|? ? Hnotin Hnd']; subst.
  rewrite map_find_app, (IH Hnd'); simpl.
  destruct (k =? k0) eqn:E.
  - apply String.eqb_eq in E; subst k0.
    rewrite (map_find_None k rest Hnotin). reflexivity.
  - destruct (map_find k rest); reflexivity.
Qed.

Lemma ascending_cons k keys : ascending (k :: keys) <-> below k keys /\ ascending keys.
Proof.
  destruct keys as [|k' rest]; simpl; tauto.
Qed.

Lemma below_assign k key v m :
  String.compare k key = Lt -> below k (map_keys m) ->
  below k (map_keys (map_assign key v m)).
Proof.
  intros Hlt Hb. destruct m as [|[k0 w] rest]; simpl; [exact Hlt|].
  destruct (String.compare key k0); simpl; assumption.
Qed.

Lemma ascending_assign key v m :
  ascending (map_keys m) -> ascending (map_keys (map_assign key v m)).
Proof.
  induction m as [|[k0 w] rest IH]; intros Hasc.
  - simpl; exact I.
  - change (map_keys ((k0, w) :: rest)) with (k0 :: map_keys rest) in Hasc.
    apply ascending_cons in Hasc as [Hb Hrest].
    simpl. destruct (String.compare key k0) eqn:Hc.
    + apply String.compare_eq_iff in Hc; subst k0.
      change (ascending (key :: map_keys rest)). apply ascending_cons; split; assumption.
    + change (ascending (key :: k0 :: map_keys rest)).
      apply ascending_cons; split; [exact Hc|].
      apply ascending_cons; split; assumption.
    + change (ascending (k0 :: map_keys (map_assign key v rest))).
      apply ascending_cons; split; [|apply IH; exact Hrest].
      apply below_assign; [apply compare_gt_lt; exact Hc | exact Hb].
Qed.

Lemma ascending_fold (l : list (string * V)) : forall acc,
  ascending (map_keys acc) ->
  ascending (map_keys (fold_left (fun m kv => map_assign (fst kv) (snd kv) m) l acc)).
Proof.
  induction l as [|[k0 w] rest IH]; intros acc Hacc; simpl; [exact Hacc|].
  apply IH, ascending_assign, Hacc.
Qed.

(** A map built by assignments lists its keys in ascending order. *)
Lemma ascending_of_list (l : list (string * V)) : ascending (map_keys (map_of_list l)).
Proof. apply ascending_fold; exact I. Qed.
End map_facts.

Lemma ascending_Forall (k : string) (keys : list string) :
  ascending (k :: keys) -> Forall (fun k' => String.compare k k' = Lt) keys.
Proof.
  revert k; induction keys as [|k' rest IH]; intros k Hasc; constructor.
  - destruct Hasc as [Hlt _]; exact Hlt.
  - destruct Hasc as [Hlt Hrest].
    specialize (IH k' Hrest).
    eapply Forall_impl; [|exact IH].
    intros a Ha; simpl in Ha. eapply compare_lt_trans; eassumption.
Qed.

Lemma ascending_NoDup (keys : list string) : ascending keys -> NoDup keys.
Proof.
  induction keys as [|k rest IH]; intros Hasc; constructor.
  - intros Hin. pose proof (ascending_Forall k rest Hasc) as HF.
    rewrite Forall_forall in HF. specialize (HF k Hin).
    rewrite compare_refl in HF. discriminate.
  - apply IH. destruct rest; [exact I | apply Hasc].
Qed.

Lemma map_find_map {A B} (g : A -> B) (k : string) (l : list (string * A)) :
  map_find k (map (fun kv => (fst kv, g (snd kv))) l) = option_map g (map_find k l).
Proof.
  induction l as [|[k0 a] rest IH]; simpl; [reflexivity|].
  destruct (k =? k0); [reflexivity | apply IH].
Qed.

Lemma map_keys_map {A B} (g : A -> B) (l : list (string * A)) :
  map_keys (map (fun kv => (fst kv, g (snd kv))) l) = map_keys l.
Proof.
  unfold map_keys. rewrite map_map. reflexivity.
Qed.

Lemma ascending_app_Forall (l1 l2 : list string) (k : string) :
  ascending (l1 ++ k :: l2) -> Forall (fun k' => String.compare k' k = Lt) l1.
Proof.
  induction l1 as [|a rest IH]; intros Hasc; constructor.
  - pose proof (ascending_Forall a (rest ++ k :: l2) Hasc) as HF.
    rewrite Forall_forall in HF. apply HF. apply in_or_app. right; left; reflexivity.
  - apply IH. change ((a :: rest) ++ k :: l2) with (a :: (rest ++ k :: l2)) in Hasc.
    apply ascending_cons in Hasc. apply Hasc.
Qed.

Lemma map_assign_last {V} (key : string) (v : V) (acc : map_t V) :
  Forall (fun k' => String.compare k' key = Lt) (map_keys acc) ->
  map_assign key v acc = acc ++ [(key, v)].
Proof.
  induction acc as [|[k0 w] rest IH]; simpl; intros H; [reflexivity|].
  inversion H as [|? ? Hlt Hrest]; subst.
  rewrite String.compare_antisym, Hlt; simpl. rewrite (IH Hrest). reflexivity.
Qed.

Lemma fold_assign_ascending {V} (l : list (string * V)) : forall acc,
  ascending (map_keys (acc ++ l)) ->
  fold_left (fun m kv => map_assign (fst kv) (snd kv) m) l acc = acc ++ l.
Proof.
  induction l as [|[k v] rest IH]; intros acc Hasc; simpl.
  - rewrite app_nil_r. reflexivity.
  - rewrite map_assign_last.
    + rewrite IH; rewrite <- app_assoc; [reflexivity | exact Hasc].
    + unfold map_keys in Hasc. rewrite map_app in Hasc. simpl in Hasc.
      exact (ascending_app_Forall _ _ _ Hasc).
Qed.

(** Members that already come by ascending key are stored as they come. *)
Lemma map_of_list_ascending {V} (l : list (string * V)) :
  ascending (map_keys l) -> map_of_list l = l.
Proof.
  intros H. unfold map_of_list. apply (fold_assign_ascending l []). exact H.
Qed.

(** ** Conversions of "coordinates" values *)

Lemma get_double_ordinate (a : json) : is_number a = true -> get_double a = Ok (ordinate a).
Proof. destruct a; simpl; intros H; try discriminate; reflexivity. Qed.

Lemma get_pair_shaped (p : json) :
  shaped_pair p = true -> get_pair p = Ok (x (pair_of p), y (pair_of p)).
Proof.
  destruct p as [| |[|a [|b rest]]| | | | | | |]; simpl; intros H; try discriminate.
  apply andb_prop in H as [Ha Hb].
  unfold get_pair; simpl.
  rewrite (get_double_ordinate a Ha), (get_double_ordinate b Hb). reflexivity.
Qed.

Lemma converts_double : converts get_double is_number.
Proof. intros j; destruct j; simpl; eauto. Qed.

Lemma get_double_cases (a : json) :
  (is_number a = true /\ get_double a = Ok (ordinate a)) \/
  (is_number a = false /\ get_double a = Throw (JsonException type_error)).
Proof. destruct a; simpl; auto. Qed.

Lemma converts_pair : converts get_pair shaped_pair.
Proof.
  intros p. destruct (shaped_pair p) eqn:Hs.
  - rewrite (get_pair_shaped p Hs); eauto.
  - destruct p as [| |[|a [|b rest]]| | | | | | |]; unfold get_pair; simpl; eauto.
    + destruct (get_double_cases a) as [[_ ->]|[_ ->]]; simpl; eauto.
    + simpl in Hs.
      destruct (get_double_cases a) as [[Ha ->]|[_ ->]]; simpl; eauto.
      destruct (get_double_cases b) as [[Hb ->]|[_ ->]]; simpl; eauto.
      rewrite Ha, Hb in Hs. discriminate.
Qed.

Lemma converts_vector {T} (get : json -> outcome T) (shape : json -> bool) :
  converts get shape -> converts (get_vector get) (shaped_array shape).
Proof.
  intros Hc j. destruct j; simpl; eauto.
  induction elems as [|a rest IH]; simpl; eauto.
  specialize (Hc a). destruct (shape a); simpl.
  - destruct Hc as [v ->]; simpl.
    destruct (forallb shape rest).
    + destruct IH as [vs ->]; simpl; eauto.
    + destruct IH as [e ->]; simpl; eauto.
  - destruct Hc as [e ->]; simpl; eauto.
Qed.

Lemma converts_shaped (k : kind) :
  match k with
  | KPoint => converts (get_vector get_double) (shaped k)
  | KLineString | KMultiPoint => converts (get_vector get_pair) (shaped k)
  | KPolygon | KMultiLineString => converts (get_vector (get_vector get_pair)) (shaped k)
  | KMultiPolygon => converts (get_vector (get_vector (get_vector get_pair))) (shaped k)
  end.
Proof.
  destruct k; simpl; repeat apply converts_vector;
    first [apply converts_double | apply converts_pair].
Qed.

Lemma get_vector_shaped {T} (get : json -> outcome T) (shape : json -> bool)
      (value : json -> T) (c : json) :
  (forall j, shape j = true -> get j = Ok (value j)) ->
  shaped_array shape c = true ->
  get_vector get c = Ok (map value (array_elems c)).
Proof.
  intros Hget. destruct c; simpl; try discriminate.
  induction elems as [|a rest IH]; simpl; intros H; [reflexivity|].
  apply andb_prop in H as [Ha Hrest].
  rewrite (Hget a Ha); simpl. rewrite (IH Hrest); reflexivity.
Qed.

Lemma to_coordinates_pairs (l : list json) :
  to_coordinates (map (fun p => (x (pair_of p), y (pair_of p))) l) = map pair_of l.
Proof.
  unfold to_coordinates. rewrite map_map. apply map_ext.
  intros p; simpl. destruct (pair_of p); reflexivity.
Qed.

(** ** The call budget of [readGeometry] *)

Lemma for_each_ext {A B} (f g : A -> outcome B) (l : list A) :
  (forall a, In a l -> f a = g a) -> for_each f l = for_each g l.
Proof.
  induction l as [|a rest IH]; simpl; intros H; [reflexivity|].
  rewrite (H a) by (left; reflexivity).
  rewrite IH by (intros b Hb; apply H; right; exact Hb). reflexivity.
Qed.

Lemma depth_member (key : string) (members : map_t json) (v : json) :
  map_find key members = Some v -> json_depth v < json_depth (JObject members).
Proof.
  simpl. induction members as [|[k0 w] rest IH]; simpl; intros H; [discriminate|].
  destruct (key =? k0).
  - injection H as ->. lia.
  - specialize (IH H). lia.
Qed.

Lemma depth_enumerate (x : json) (elems : list json) : forall i,
  In x (map snd (enumerate_from i elems)) -> json_depth x <= list_max (map json_depth elems).
Proof.
  induction elems as [|e rest IH]; simpl; intros i H; [contradiction|].
  destruct H as [<-|H]; [lia|]. specialize (IH _ H). lia.
Qed.

Lemma depth_elements (x v : json) : In x (elements v) -> json_depth x <= json_depth v.
Proof.
  unfold elements. destruct v; simpl; intros H;
    try (destruct H as [<-|[]]; simpl; lia); try contradiction.
  - induction members as [|[k0 w] rest IH]; simpl in *; [contradiction|].
    destruct H as [<-|H]; [lia|]. specialize (IH H). lia.
  - apply depth_enumerate in H. lia.
Qed.

Lemma readGeometry_fuel_stable : forall n m j,
  json_depth j < n -> json_depth j < m ->
  readGeometry_fuel n j = readGeometry_fuel m j.
Proof.
  induction n as [|n IH]; intros m j Hn Hm; [lia|].
  destruct m as [|m]; [lia|]. simpl.
  unfold readGeometry_body.
  destruct (index_const j "type") as [t| | |]; simpl; try reflexivity.
  destruct (get_string t) as [type| | |]; simpl; try reflexivity.
  repeat (match goal with |- context [if ?b then _ else _] => destruct b end;
          try reflexivity).
  unfold readGeometryCollection.
  destruct j; simpl; try reflexivity.
  destruct (map_find "geometries" members) as [v|] eqn:Hv; simpl; [|reflexivity].
  apply depth_member in Hv.
  rewrite (for_each_ext (readGeometry_fuel n) (readGeometry_fuel m)); [reflexivity|].
  intros a Ha. apply depth_elements in Ha. apply IH; lia.
Qed.

(** [readGeometry] satisfies the recursive equation the C++ text reads as. *)
Lemma readGeometry_unfold (j : json) :
  readGeometry j = readGeometry_body readGeometry j.
Proof.
  unfold readGeometry at 1. simpl.
  unfold readGeometry_body.
  destruct (index_const j "type") as [t| | |]; simpl; try reflexivity.
  destruct (get_string t) as [type| | |]; simpl; try reflexivity.
  repeat (match goal with |- context [if ?b then _ else _] => destruct b end;
          try reflexivity).
  unfold readGeometryCollection.
  destruct j; simpl; try reflexivity.
  destruct (map_find "geometries" members) as [v|] eqn:Hv; simpl; [|reflexivity].
  apply depth_member in Hv.
  rewrite (for_each_ext (readGeometry_fuel (json_depth (JObject members))) readGeometry);
    [reflexivity|].
  intros a Ha. apply depth_elements in Ha. unfold readGeometry.
  apply readGeometry_fuel_stable; lia.
Qed.

(** ** Dispatch on the declared kind *)

Lemma readGeometry_typed (members : map_t json) (type : string) :
  map_find "type" members = Some (JString type) ->
  readGeometry (JObject members)
  = if type =? "Point" then readPoint (JObject members)
    else if type =? "LineString" then readLineString (JObject members)
    else if type =? "Polygon" then readPolygon (JObject members)
    else if type =? "MultiPoint" then readMultiPoint (JObject members)
    else if type =? "MultiLineString" then readMultiLineString (JObject members)
    else if type =? "MultiPolygon" then readMultiPolygon (JObject members)
    else if type =? "GeometryCollection"
         then readGeometryCollection readGeometry (JObject members)
    else Throw (ParseException "Unknown geometry type!").
Proof.
  intros Ht. rewrite readGeometry_unfold. unfold readGeometry_body; simpl.
  rewrite Ht; reflexivity.
Qed.

(** ** Points and polygons *)

Lemma readPoint_numbers (members : map_t json) (ords : list json) :
  map_find "coordinates" members = Some (JArray ords) ->
  forallb is_number ords = true ->
  readPoint (JObject members)
  = match ords with
    | [] => Ok (createPoint_empty 2)
    | [_] => Throw (ParseException "Expected two coordinates found one")
    | a :: b :: _ => Ok (createPoint (mkCoordinate (ordinate a) (ordinate b)))
    end.
Proof.
  intros Hc Hn. unfold readPoint; simpl. rewrite Hc; simpl.
  change (for_each get_double ords) with (get_vector get_double (JArray ords)).
  rewrite (get_vector_shaped get_double is_number ordinate (JArray ords)
             get_double_ordinate Hn); simpl.
  destruct ords as [|a [|b rest]]; reflexivity.
Qed.

(** C2. A Point whose "coordinates" array holds only numbers decodes by the
    count of its ordinates: none gives the empty Point and no error; exactly
    one fails with the geometry decoder's own [ParseException]; two or more
    give the Point at the first two values, whatever follows them. *)
Theorem readPoint_ordinates (members : map_t json) (ords : list json) :
  map_find "type" members = Some (JString "Point") ->
  map_find "coordinates" members = Some (JArray ords) ->
  forallb is_number ords = true ->
  readGeometry (JObject members) = readPoint (JObject members) /\
  match ords with
  | [] => readPoint (JObject members) = Ok (Point None)
  | [_] =>
      readPoint (JObject members)
      = Throw (ParseException "Expected two coordinates found one") /\
      MalformedGeometry (ParseException "Expected two coordinates found one")
  | a :: b :: _ =>
      readPoint (JObject members)
      = Ok (Point (Some (mkCoordinate (ordinate a) (ordinate b))))
  end.
Proof.
  intros Ht Hc Hn. split.
  - rewrite (readGeometry_typed members "Point" Ht). reflexivity.
  - rewrite (readPoint_numbers members ords Hc Hn).
    destruct ords as [|a [|b rest]]; try reflexivity.
    split; [reflexivity | right; reflexivity].
Qed.

Lemma readPoint_ordinates_witness :
  readGeometry (JObject [("coordinates", JArray [JInteger 1; JFloat (S754_zero false); JInteger 7]);
                         ("type", JString "Point")])
  = Ok (Point (Some (mkCoordinate (double_of_Z 1) (S754_zero false)))).
Proof.
  pose proof (readPoint_ordinates
                [("coordinates", JArray [JInteger 1; JFloat (S754_zero false); JInteger 7]);
                 ("type", JString "Point")]
                [JInteger 1; JFloat (S754_zero false); JInteger 7]
                eq_refl eq_refl eq_refl) as [Hg Hp].
  rewrite Hg. exact Hp.
Defined.

Lemma get_rings_shaped (c : json) :
  shaped KPolygon c = true ->
  exists polygonCoords,
    get_vector (get_vector get_pair) c = Ok polygonCoords /\
    map (fun ring => createLinearRing (to_coordinates ring)) polygonCoords
    = map ring_of (array_elems c).
Proof.
  intros Hs.
  exists (map (fun r => map (fun p => (x (pair_of p), y (pair_of p))) (array_elems r))
              (array_elems c)).
  split.
  - apply (get_vector_shaped (get_vector get_pair) (shaped_array shaped_pair)); [|exact Hs].
    intros r Hr. apply (get_vector_shaped get_pair shaped_pair); [|exact Hr].
    exact get_pair_shaped.
  - rewrite map_map. apply map_ext. intros r.
    unfold createLinearRing, ring_of. rewrite to_coordinates_pairs. reflexivity.
Qed.

(** C1. A Polygon whose "coordinates" value is well shaped is split by ring
    position: no ring gives the empty Polygon; otherwise ring 0 is the
    exterior ring and the rings from index 1 onward are the interior rings,
    in document order, each with its coordinates as written. So N rings give
    one exterior and N-1 interior rings, and one ring gives no holes. *)
Theorem readPolygon_ring_split (members : map_t json) (c : json) :
  map_find "type" members = Some (JString "Polygon") ->
  map_find "coordinates" members = Some c ->
  shaped KPolygon c = true ->
  exists polygon,
    readGeometry (JObject members) = Ok polygon /\
    readPolygon (JObject members) = Ok polygon /\
    match array_elems c with
    | [] => polygon = createPolygon_empty 2 /\ isEmptyPolygon polygon = true
    | ring0 :: others =>
        getExteriorRing polygon = Some (ring_of ring0) /\
        getInteriorRings polygon = map ring_of others /\
        getNumInteriorRing polygon = List.length (array_elems c) - 1 /\
        (forall i, getInteriorRingN polygon i
                   = option_map ring_of (nth_error (array_elems c) (S i))) /\
        (forall r, In r (array_elems c) ->
                   getCoordinates (ring_of r) = map pair_of (array_elems r))
    end.
Proof.
  intros Ht Hc Hs.
  destruct (get_rings_shaped c Hs) as [polygonCoords [Hget Hrings]].
  rewrite (readGeometry_typed members "Polygon" Ht). simpl.
  unfold readPolygon. simpl. rewrite Hc. simpl. rewrite Hget. simpl.
  rewrite Hrings.
  destruct (array_elems c) as [|ring0 [|ring1 others]]; simpl.
  - eexists; repeat split.
  - eexists; repeat split. intros i; destruct i; reflexivity.
  - eexists; repeat split.
    + unfold getNumInteriorRing; simpl. rewrite length_map. lia.
    + intros i. unfold getInteriorRingN; simpl.
      destruct i; [reflexivity|]. simpl. apply nth_error_map.
Qed.

Lemma readPolygon_ring_split_witness :
  exists polygon,
    readGeometry
      (JObject [("coordinates",
                 JArray [JArray [JArray [JInteger 0; JInteger 0]; JArray [JInteger 4; JInteger 0];
                                 JArray [JInteger 0; JInteger 4]; JArray [JInteger 0; JInteger 0]];
                         JArray [JArray [JInteger 1; JInteger 1]; JArray [JInteger 2; JInteger 1];
                                 JArray [JInteger 1; JInteger 2]; JArray [JInteger 1; JInteger 1]]]);
                ("type", JString "Polygon")])
    = Ok polygon /\
    getNumInteriorRing polygon = 1.
Proof.
  destruct (readPolygon_ring_split
              [("coordinates",
                 JArray [JArray [JArray [JInteger 0; JInteger 0]; JArray [JInteger 4; JInteger 0];
                                 JArray [JInteger 0; JInteger 4]; JArray [JInteger 0; JInteger 0]];
                         JArray [JArray [JInteger 1; JInteger 1]; JArray [JInteger 2; JInteger 1];
                                 JArray [JInteger 1; JInteger 2]; JArray [JInteger 1; JInteger 1]]]);
               ("type", JString "Polygon")]
              _ eq_refl eq_refl eq_refl) as [polygon [Hg [_ [_ [_ [Hn _]]]]]].
  exists polygon. split; [exact Hg | exact Hn].
Defined.

(** ** Well-shaped coordinates *)

Lemma get_pairs_shaped (r : json) :
  shaped_array shaped_pair r = true ->
  get_vector get_pair r = Ok (pairs_of r) /\
  to_coordinates (pairs_of r) = map pair_of (array_elems r).
Proof.
  intros H. split.
  - apply (get_vector_shaped get_pair shaped_pair _ r get_pair_shaped H).
  - apply to_coordinates_pairs.
Qed.

Lemma for_each_map_source {A B C} (f : B -> outcome C) (h : A -> B) (g : A -> C)
      (l : list A) :
  Forall (fun a => f (h a) = Ok (g a)) l -> for_each f (map h l) = Ok (map g l).
Proof.
  induction 1 as [|a rest Ha _ IH]; simpl; [reflexivity|].
  rewrite Ha; simpl. rewrite IH; reflexivity.
Qed.

Lemma readMultiPolygon_element_rings (q : json) :
  map (fun ring => createLinearRing (to_coordinates ring)) (map pairs_of (array_elems q))
  = map ring_of (array_elems q).
Proof.
  rewrite map_map. apply map_ext. intros r.
  unfold createLinearRing, ring_of, pairs_of. rewrite to_coordinates_pairs. reflexivity.
Qed.

Lemma readMultiPolygon_element_some (q : json) :
  array_elems q <> [] ->
  readMultiPolygon_element (map pairs_of (array_elems q)) = Ok (polygon_of q).
Proof.
  intros Hne. unfold readMultiPolygon_element, polygon_of.
  rewrite readMultiPolygon_element_rings.
  destruct (array_elems q) as [|r0 [|r1 rest]]; [contradiction | reflexivity | reflexivity].
Qed.

Lemma get_polygons_shaped (c : json) :
  shaped KMultiPolygon c = true ->
  get_vector (get_vector (get_vector get_pair)) c
  = Ok (map (fun q => map pairs_of (array_elems q)) (array_elems c)).
Proof.
  intros Hs.
  apply (get_vector_shaped _ (shaped_array (shaped_array shaped_pair))); [|exact Hs].
  intros q Hq. apply (get_vector_shaped _ (shaped_array shaped_pair)); [|exact Hq].
  intros r Hr. apply (get_pairs_shaped r Hr).
Qed.

Lemma get_lines_shaped (c : json) :
  shaped_array (shaped_array shaped_pair) c = true ->
  get_vector (get_vector get_pair) c = Ok (map pairs_of (array_elems c)).
Proof.
  intros Hs. apply (get_vector_shaped _ (shaped_array shaped_pair)); [|exact Hs].
  intros r Hr. apply (get_pairs_shaped r Hr).
Qed.

(** Every kind decodes a well-shaped value in its domain to the geometry
    [geometry_of] names. *)
Lemma readGeometry_shaped (members : map_t json) (k : kind) (c : json) :
  map_find "type" members = Some (JString (kind_name k)) ->
  map_find "coordinates" members = Some c ->
  shaped k c = true -> in_domain k c ->
  readGeometry (JObject members) = Ok (geometry_of k c).
Proof.
  intros Ht Hc Hs Hd. rewrite (readGeometry_typed members _ Ht).
  destruct k; simpl in Hs, Hd |- *.
  - destruct c; simpl in Hs; try discriminate.
    rewrite (readPoint_numbers members elems Hc Hs).
    destruct elems as [|a [|b rest]]; simpl in Hd; [reflexivity | congruence | reflexivity].
  - unfold readLineString; simpl. rewrite Hc; simpl.
    destruct (get_pairs_shaped c Hs) as [-> Hco]; simpl. rewrite Hco. reflexivity.
  - unfold readPolygon; simpl. rewrite Hc; simpl.
    rewrite (get_lines_shaped c Hs); simpl.
    rewrite readMultiPolygon_element_rings. unfold polygon_of.
    destruct (array_elems c) as [|r0 [|r1 rest]]; reflexivity.
  - unfold readMultiPoint; simpl. rewrite Hc; simpl.
    destruct (get_pairs_shaped c Hs) as [-> Hco]; simpl. rewrite Hco. reflexivity.
  - unfold readMultiLineString; simpl. rewrite Hc; simpl.
    rewrite (get_lines_shaped c Hs); simpl. rewrite map_map.
    unfold createMultiLineString. do 2 f_equal. apply map_ext. intros r.
    unfold createLineString, line_of, pairs_of. rewrite to_coordinates_pairs. reflexivity.
  - unfold readMultiPolygon; simpl. rewrite Hc; simpl.
    rewrite (get_polygons_shaped c Hs); simpl.
    rewrite (for_each_map_source readMultiPolygon_element _ polygon_of); [reflexivity|].
    eapply Forall_impl; [|exact Hd]. intros q Hq. apply readMultiPolygon_element_some, Hq.
Qed.

(** Whatever else a MultiPolygon holds, a well-shaped value with an element
    of zero rings reaches the read of [rings[0]] on an empty vector. *)
Lemma readMultiPolygon_empty_element (members : map_t json) (c : json) :
  map_find "coordinates" members = Some c ->
  shaped KMultiPolygon c = true ->
  Exists (fun q => array_elems q = []) (array_elems c) ->
  readMultiPolygon (JObject members) = Undefined (VectorOutOfRange 0 0).
Proof.
  intros Hc Hs Hex. unfold readMultiPolygon; simpl. rewrite Hc; simpl.
  rewrite (get_polygons_shaped c Hs); simpl. clear Hc Hs.
  induction (array_elems c) as [|q rest IH]; [inversion Hex|]. simpl.
  destruct (array_elems q) as [|r0 others] eqn:Hq.
  - reflexivity.
  - rewrite <- Hq. rewrite readMultiPolygon_element_some by congruence. simpl.
    inversion Hex as [? ? H0|? ? Hrest]; subst; [congruence|].
    specialize (IH Hrest).
    destruct (for_each readMultiPolygon_element
                (map (fun q0 => map pairs_of (array_elems q0)) rest)); simpl in *;
      congruence.
Qed.

(** ** The entry points *)

Section entry_points.
Variable json_parse : string -> json + (nat * string).
Variable text : string.

Lemma entry_parse_error (byte : nat) (what : string) :
  json_parse text = inr (byte, what) ->
  read json_parse text = Throw error_parsing_json /\
  readFeatures json_parse text = Throw error_parsing_json.
Proof.
  intros H. unfold read, readFeatures, parse. rewrite H. split; reflexivity.
Qed.

Lemma entry_no_type_key (j : json) :
  json_parse text = inl j -> has_type_key j = false ->
  read json_parse text = Throw error_parsing_json /\
  readFeatures json_parse text = Throw error_parsing_json.
Proof.
  intros H Hk. unfold read, readFeatures, parse. rewrite H.
  destruct j; simpl in *; try (split; reflexivity).
  destruct (map_find "type" members); [discriminate|]. split; reflexivity.
Qed.

(** A document that declares neither "Feature" nor "FeatureCollection" is
    handed to [readGeometry] inside the [try] block. *)
Lemma entry_bare_geometry (members : map_t json) (type : string) :
  json_parse text = inl (JObject members) ->
  map_find "type" members = Some (JString type) ->
  (type =? "Feature") = false -> (type =? "FeatureCollection") = false ->
  read json_parse text
  = try_catch_json (readGeometry (JObject members)) (Throw error_parsing_json) /\
  readFeatures json_parse text
  = try_catch_json
      (g <- readGeometry (JObject members) ;; Ok (mkFeatureCollection [mkFeature g []]))
      (Throw error_parsing_json).
Proof.
  intros H Ht Hf Hfc. unfold read, readFeatures, parse. rewrite H. simpl.
  rewrite Ht. simpl. rewrite Hf, Hfc. split; reflexivity.
Qed.
End entry_points.

Lemma kind_name_bare (k : kind) :
  (kind_name k =? "Feature") = false /\ (kind_name k =? "FeatureCollection") = false.
Proof. destruct k; split; reflexivity. Qed.

(** A "coordinates" value of the wrong shape makes the conversion throw
    inside the geometry decoder. *)
Lemma readGeometry_misshapen (members : map_t json) (k : kind) (c : json) :
  map_find "type" members = Some (JString (kind_name k)) ->
  map_find "coordinates" members = Some c ->
  shaped k c = false ->
  exists e, readGeometry (JObject members) = Throw (JsonException e).
Proof.
  intros Ht Hc Hs. rewrite (readGeometry_typed members _ Ht).
  pose proof (converts_shaped k) as Hconv.
  destruct k; simpl in Hconv |- *; specialize (Hconv c); simpl in Hconv, Hs;
    rewrite Hs in Hconv; destruct Hconv as [e He];
    unfold readPoint, readLineString, readPolygon, readMultiPoint, readMultiLineString,
      readMultiPolygon; simpl; rewrite Hc; simpl; rewrite He; simpl; eauto.
Qed.

Lemma entry_misshapen (json_parse : string -> json + (nat * string)) (text : string)
      (members : map_t json) (k : kind) (c : json) :
  json_parse text = inl (JObject members) ->
  map_find "type" members = Some (JString (kind_name k)) ->
  map_find "coordinates" members = Some c ->
  shaped k c = false ->
  read json_parse text = Throw error_parsing_json /\
  readFeatures json_parse text = Throw error_parsing_json.
Proof.
  intros H Ht Hc Hs.
  destruct (kind_name_bare k) as [Hf Hfc].
  destruct (entry_bare_geometry json_parse text members _ H Ht Hf Hfc) as [-> ->].
  destruct (readGeometry_misshapen members k c Ht Hc Hs) as [e ->].
  split; reflexivity.
Qed.

Lemma error_parsing_json_not_geometry : ~ MalformedGeometry error_parsing_json.
Proof. intros [H|H]; discriminate H. Qed.

(** C7. Both entry points turn every failure of the text parser into the one
    [ParseException] with the fixed text, whatever offset and description
    the parser reported; and an outer node without a "type" key fails with
    that same document-level error. *)
Theorem entry_points_uniform_error
        (json_parse : string -> json + (nat * string)) (text : string) :
  (forall byte what,
      json_parse text = inr (byte, what) ->
      read json_parse text = Throw (ParseException "Error parsing JSON") /\
      readFeatures json_parse text = Throw (ParseException "Error parsing JSON")) /\
  (forall j,
      json_parse text = inl j -> has_type_key j = false ->
      read json_parse text = Throw (ParseException "Error parsing JSON") /\
      readFeatures json_parse text = Throw (ParseException "Error parsing JSON")) /\
  MalformedDocument (ParseException "Error parsing JSON").
Proof.
  split; [|split].
  - intros byte what H. exact (entry_parse_error json_parse text byte what H).
  - intros j H Hk. exact (entry_no_type_key json_parse text j H Hk).
  - reflexivity.
Qed.

Lemma entry_points_uniform_error_witness :
  read (fun _ => inr (3, "syntax error while parsing value")) "{]"
  = Throw (ParseException "Error parsing JSON") /\
  readFeatures (fun _ => inl (JObject [("coordinates", JArray [])])) "{}"
  = Throw (ParseException "Error parsing JSON").
Proof.
  split.
  - exact (proj1 (proj1 (entry_points_uniform_error
                           (fun _ => inr (3, "syntax error while parsing value")) "{]")
                        3 "syntax error while parsing value" eq_refl)).
  - exact (proj2 (proj1 (proj2 (entry_points_uniform_error
                                  (fun _ => inl (JObject [("coordinates", JArray [])])) "{}"))
                        (JObject [("coordinates", JArray [])]) eq_refl eq_refl)).
Defined.

(** C10. A geometry document whose "coordinates" field is present but not
    shaped as its kind requires (not an array, nested to the wrong depth, a
    leaf that is not a number) makes [read] and [readFeatures] throw the
    document-level [ParseException] with the text [Error parsing JSON], which
    is none of the geometry decoder's own errors; the same holds when the
    document is the "geometry" of a Feature. *)
Theorem misshapen_coordinates_error
        (json_parse : string -> json + (nat * string)) (text : string)
        (members : map_t json) (k : kind) (c : json) :
  map_find "type" members = Some (JString (kind_name k)) ->
  map_find "coordinates" members = Some c ->
  shaped k c = false ->
  (json_parse text = inl (JObject members) ->
   read json_parse text = Throw (ParseException "Error parsing JSON") /\
   readFeatures json_parse text = Throw (ParseException "Error parsing JSON")) /\
  (forall feature : map_t json,
      json_parse text = inl (JObject feature) ->
      map_find "type" feature = Some (JString "Feature") ->
      map_find "geometry" feature = Some (JObject members) ->
      read json_parse text = Throw (ParseException "Error parsing JSON") /\
      readFeatures json_parse text = Throw (ParseException "Error parsing JSON")) /\
  ~ MalformedGeometry (ParseException "Error parsing JSON").
Proof.
  intros Ht Hc Hs. split; [|split].
  - intros H. exact (entry_misshapen json_parse text members k c H Ht Hc Hs).
  - intros feature H Hft Hg.
    destruct (readGeometry_misshapen members k c Ht Hc Hs) as [e He].
    unfold read, readFeatures, parse. rewrite H. simpl. rewrite Hft. simpl.
    unfold readFeatureForGeometry, readFeature. simpl. rewrite Hg. simpl.
    rewrite He. split; reflexivity.
  - exact error_parsing_json_not_geometry.
Qed.

Lemma misshapen_coordinates_error_witness :
  read (fun _ => inl (JObject [("coordinates", JString "here");
                               ("type", JString "MultiPolygon")])) "document"
  = Throw (ParseException "Error parsing JSON").
Proof.
  exact (proj1 (proj1 (misshapen_coordinates_error
                  (fun _ => inl (JObject [("coordinates", JString "here");
                                          ("type", JString "MultiPolygon")]))
                  "document"
                  [("coordinates", JString "here"); ("type", JString "MultiPolygon")]
                  KMultiPolygon (JString "here") eq_refl eq_refl eq_refl) eq_refl)).
Defined.

(** ** The dispatch table *)

Lemma unknown_kind (members : map_t json) (type : string) :
  map_find "type" members = Some (JString type) ->
  is_geometry_kind type = false ->
  readGeometry (JObject members) = Throw (ParseException "Unknown geometry type!").
Proof.
  intros Ht Hk. rewrite (readGeometry_typed members type Ht).
  unfold is_geometry_kind in Hk; simpl in Hk.
  repeat (apply orb_false_elim in Hk; destruct Hk as [-> Hk]).
  reflexivity.
Qed.

(** C4, as the code has it. [readGeometry] compares the "type" string with
    the seven kind names, exactly and with case; a node whose "type" is any
    other string fails with [ParseException] "Unknown geometry type!". When
    the "type" key is missing from the outer node, the entry points fail with
    the document-level error instead. *)
Theorem readGeometry_dispatch :
  (forall (members : map_t json) (type : string),
      map_find "type" members = Some (JString type) ->
      let j := JObject members in
      (type = "Point" -> readGeometry j = readPoint j) /\
      (type = "LineString" -> readGeometry j = readLineString j) /\
      (type = "Polygon" -> readGeometry j = readPolygon j) /\
      (type = "MultiPoint" -> readGeometry j = readMultiPoint j) /\
      (type = "MultiLineString" -> readGeometry j = readMultiLineString j) /\
      (type = "MultiPolygon" -> readGeometry j = readMultiPolygon j) /\
      (type = "GeometryCollection" ->
       readGeometry j = readGeometryCollection readGeometry j) /\
      (is_geometry_kind type = false ->
       readGeometry j = Throw (ParseException "Unknown geometry type!") /\
       MalformedGeometry (ParseException "Unknown geometry type!"))) /\
  (forall (json_parse : string -> json + (nat * string)) (text : string) (j : json),
      json_parse text = inl j -> has_type_key j = false ->
      read json_parse text = Throw (ParseException "Error parsing JSON") /\
      readFeatures json_parse text = Throw (ParseException "Error parsing JSON")).
Proof.
  split.
  - intros members type Ht j.
    pose proof (readGeometry_typed members type Ht) as Hd. fold j in Hd.
    repeat split; try (intros ->; exact Hd).
    + apply (unknown_kind members type Ht); assumption.
    + left; reflexivity.
  - intros json_parse text j H Hk. exact (entry_no_type_key json_parse text j H Hk).
Qed.

Lemma readGeometry_dispatch_witness :
  readGeometry (JObject [("coordinates", JArray []); ("type", JString "point")])
  = Throw (ParseException "Unknown geometry type!") /\
  readGeometry (JObject [("coordinates", JArray []); ("type", JString "Point")])
  = readPoint (JObject [("coordinates", JArray []); ("type", JString "Point")]) /\
  read (fun _ => inl (JArray [])) "[]" = Throw (ParseException "Error parsing JSON").
Proof.
  split; [|split].
  - destruct (proj1 readGeometry_dispatch
                [("coordinates", JArray []); ("type", JString "point")] "point" eq_refl)
      as [_ [_ [_ [_ [_ [_ [_ H]]]]]]].
    exact (proj1 (H eq_refl)).
  - destruct (proj1 readGeometry_dispatch
                [("coordinates", JArray []); ("type", JString "Point")] "Point" eq_refl)
      as [H _].
    exact (H eq_refl).
  - exact (proj1 (proj2 readGeometry_dispatch (fun _ => inl (JArray [])) "[]" (JArray [])
                        eq_refl eq_refl)).
Defined.

(** C4 as stated fails where the "type" key is missing: the lookup through
    the const reference is outside the library's contract, and at the top
    level the error is the document-level one; neither is "Unknown geometry
    type!". *)
Lemma missing_type_not_unknown_geometry :
  readGeometry (JObject [("coordinates", JArray [])]) = Undefined (AbsentKey "type") /\
  readGeometry (JObject [("coordinates", JArray [])])
  <> Throw (ParseException "Unknown geometry type!") /\
  read (fun _ => inl (JObject [("coordinates", JArray [])])) "{}"
  = Throw (ParseException "Error parsing JSON") /\
  read (fun _ => inl (JObject [("coordinates", JArray [])])) "{}"
  <> Throw (ParseException "Unknown geometry type!").
Proof.
  repeat split; try reflexivity; intros H; discriminate H.
Qed.

(** ** Leaf pairs *)

Lemma leaf_unshaped (k : kind) (p c : json) :
  leaf_of k p c -> shaped_pair p = false -> shaped k c = false.
Proof.
  assert (Hin : forall (shape : json -> bool) (a b : json),
             In a (array_elems b) -> shape a = false -> shaped_array shape b = false).
  { intros shape a b Ha Hs. destruct b; simpl in *; try contradiction.
    destruct (forallb shape elems) eqn:Hall; [|reflexivity].
    rewrite forallb_forall in Hall. rewrite (Hall a Ha) in Hs. discriminate. }
  intros Hleaf Hp. destruct k; simpl in *.
  - contradiction.
  - eapply Hin; eassumption.
  - destruct Hleaf as [r [Hr Hpr]]. eapply Hin; [exact Hr|]. eapply Hin; eassumption.
  - eapply Hin; eassumption.
  - destruct Hleaf as [r [Hr Hpr]]. eapply Hin; [exact Hr|]. eapply Hin; eassumption.
  - destruct Hleaf as [q [r [Hq [Hr Hpr]]]].
    eapply Hin; [exact Hq|]. eapply Hin; [exact Hr|]. eapply Hin; eassumption.
Qed.

(** C5, as the code has it. A leaf pair is read from its first two values,
    whatever follows them, and every kind builds its geometry from the pairs
    so read, in document order. A leaf pair with fewer than two numbers, in
    any kind that holds pairs, makes the JSON conversion throw, and the entry
    points re-raise that as the document-level error [Error parsing JSON]. A
    Point is no pair: one ordinate is the geometry decoder's own error, none
    is the empty Point. *)
Theorem leaf_pair_policy :
  (forall a b rest,
      is_number a = true -> is_number b = true ->
      get_pair (JArray (a :: b :: rest)) = Ok (ordinate a, ordinate b) /\
      pair_of (JArray (a :: b :: rest)) = mkCoordinate (ordinate a) (ordinate b)) /\
  (forall (members : map_t json) (k : kind) (c : json),
      map_find "type" members = Some (JString (kind_name k)) ->
      map_find "coordinates" members = Some c ->
      shaped k c = true -> in_domain k c ->
      readGeometry (JObject members) = Ok (geometry_of k c)) /\
  (forall (json_parse : string -> json + (nat * string)) (text : string)
          (members : map_t json) (k : kind) (c p : json),
      json_parse text = inl (JObject members) ->
      map_find "type" members = Some (JString (kind_name k)) ->
      map_find "coordinates" members = Some c ->
      leaf_of k p c -> shaped_pair p = false ->
      (exists e, readGeometry (JObject members) = Throw (JsonException e)) /\
      read json_parse text = Throw (ParseException "Error parsing JSON") /\
      readFeatures json_parse text = Throw (ParseException "Error parsing JSON")) /\
  (forall (members : map_t json) (a : json),
      map_find "coordinates" members = Some (JArray [a]) -> is_number a = true ->
      readPoint (JObject members)
      = Throw (ParseException "Expected two coordinates found one") /\
      MalformedGeometry (ParseException "Expected two coordinates found one")) /\
  (forall (members : map_t json),
      map_find "coordinates" members = Some (JArray []) ->
      readPoint (JObject members) = Ok (Point None)).
Proof.
  split; [|split; [|split; [|split]]].
  - intros a b rest Ha Hb. split; [|reflexivity].
    apply (get_pair_shaped (JArray (a :: b :: rest))). simpl. rewrite Ha, Hb. reflexivity.
  - exact readGeometry_shaped.
  - intros json_parse text members k c p H Ht Hc Hleaf Hp.
    pose proof (leaf_unshaped k p c Hleaf Hp) as Hs.
    split; [exact (readGeometry_misshapen members k c Ht Hc Hs)|].
    exact (entry_misshapen json_parse text members k c H Ht Hc Hs).
  - intros members a Hc Ha. split; [|right; reflexivity].
    rewrite (readPoint_numbers members [a] Hc); [reflexivity|].
    simpl. rewrite Ha. reflexivity.
  - intros members Hc. rewrite (readPoint_numbers members [] Hc eq_refl). reflexivity.
Qed.

Lemma leaf_pair_policy_witness :
  get_pair (JArray [JInteger 1; JInteger 2; JString "up"]) = Ok (double_of_Z 1, double_of_Z 2) /\
  readGeometry (JObject [("coordinates", JArray [JArray [JInteger 1; JInteger 2; JInteger 9];
                                                 JArray [JInteger 3; JInteger 4]]);
                         ("type", JString "LineString")])
  = Ok (LineString [mkCoordinate (double_of_Z 1) (double_of_Z 2);
                    mkCoordinate (double_of_Z 3) (double_of_Z 4)]) /\
  read (fun _ => inl (JObject [("coordinates", JArray [JArray [JInteger 1; JInteger 2];
                                                       JArray [JInteger 3]]);
                               ("type", JString "MultiPoint")])) "document"
  = Throw (ParseException "Error parsing JSON") /\
  readPoint (JObject [("coordinates", JArray [JInteger 1])])
  = Throw (ParseException "Expected two coordinates found one") /\
  readPoint (JObject [("coordinates", JArray [])]) = Ok (Point None).
Proof.
  destruct leaf_pair_policy as [Hpair [Hgood [Hshort [Hone Hzero]]]].
  split; [|split; [|split; [|split]]].
  - exact (proj1 (Hpair (JInteger 1) (JInteger 2) [JString "up"] eq_refl eq_refl)).
  - exact (Hgood [("coordinates", JArray [JArray [JInteger 1; JInteger 2; JInteger 9];
                                          JArray [JInteger 3; JInteger 4]]);
                  ("type", JString "LineString")]
                 KLineString
                 (JArray [JArray [JInteger 1; JInteger 2; JInteger 9];
                          JArray [JInteger 3; JInteger 4]])
                 eq_refl eq_refl eq_refl I).
  - exact (proj1 (proj2 (Hshort
             (fun _ => inl (JObject [("coordinates", JArray [JArray [JInteger 1; JInteger 2];
                                                             JArray [JInteger 3]]);
                                     ("type", JString "MultiPoint")]))
             "document"
             [("coordinates", JArray [JArray [JInteger 1; JInteger 2]; JArray [JInteger 3]]);
              ("type", JString "MultiPoint")]
             KMultiPoint
             (JArray [JArray [JInteger 1; JInteger 2]; JArray [JInteger 3]])
             (JArray [JInteger 3])
             eq_refl eq_refl eq_refl (or_intror (or_introl eq_refl)) eq_refl))).
  - exact (proj1 (Hone [("coordinates", JArray [JInteger 1])] (JInteger 1) eq_refl eq_refl)).
  - exact (Hzero [("coordinates", JArray [])] eq_refl).
Defined.

(** C5 as stated fails on a LineString with a one-number pair: the decoder
    throws the JSON library's [out_of_range], and [read] reports the
    document-level error, which is not a geometry error. *)
Lemma short_pair_not_geometry_error :
  readGeometry (JObject [("coordinates", JArray [JArray [JInteger 1]]);
                         ("type", JString "LineString")])
  = Throw (JsonException out_of_range) /\
  read (fun _ => inl (JObject [("coordinates", JArray [JArray [JInteger 1]]);
                               ("type", JString "LineString")])) "document"
  = Throw (ParseException "Error parsing JSON") /\
  ~ MalformedGeometry (JsonException out_of_range) /\
  ~ MalformedGeometry (ParseException "Error parsing JSON").
Proof.
  repeat split; try reflexivity; intros [H|H]; discriminate H.
Qed.

(** ** Polygons of a MultiPolygon *)

(** C9 fails on the code. For a MultiPolygon with an element of zero rings,
    [readMultiPolygon] has no branch for an empty ring list: it reads
    [rings[0]] of an empty vector. [readPolygon] has the branch and returns
    the empty Polygon on the same ring list. *)
Theorem readMultiPolygon_zero_rings :
  readMultiPolygon (JObject [("coordinates", JArray [JArray []]);
                             ("type", JString "MultiPolygon")])
  = Undefined (VectorOutOfRange 0 0) /\
  readGeometry (JObject [("coordinates", JArray [JArray []]);
                         ("type", JString "MultiPolygon")])
  = Undefined (VectorOutOfRange 0 0) /\
  read (fun _ => inl (JObject [("coordinates", JArray [JArray []]);
                               ("type", JString "MultiPolygon")])) "document"
  = Undefined (VectorOutOfRange 0 0) /\
  readPolygon (JObject [("coordinates", JArray []); ("type", JString "Polygon")])
  = Ok (Polygon None []).
Proof.
  repeat split; reflexivity.
Qed.

(** ** Property mappings *)

Lemma readProperties_items (p : json) :
  readProperties p
  = Ok (map_of_list (map (fun kv => (fst kv, decodeValue (snd kv))) (items p))).
Proof.
  unfold readProperties, map_of_list. apply assign_each_fold.
  apply Forall_forall. intros kv _. apply readProperty_decodeValue.
Qed.

Lemma index_key_inj (i j : nat) : index_key i = index_key j -> i = j.
Proof.
  unfold index_key. intros H.
  apply (f_equal DecimalString.NilEmpty.uint_of_string) in H.
  rewrite !DecimalString.NilEmpty.usu in H. injection H as H.
  apply (f_equal Nat.of_uint) in H.
  rewrite !DecimalNat.Unsigned.of_to in H. exact H.
Qed.

Lemma map_find_enumerate (elems : list json) : forall s i,
  map_find (index_key (s + i)) (enumerate_from s elems) = nth_error elems i.
Proof.
  induction elems as [|e rest IH]; intros s i; simpl.
  - destruct i; reflexivity.
  - destruct i as [|i]; simpl.
    + rewrite Nat.add_0_r, String.eqb_refl. reflexivity.
    + destruct (index_key (s + S i) =? index_key s) eqn:E.
      * apply String.eqb_eq, index_key_inj in E. lia.
      * rewrite <- (IH (S s) i). f_equal. f_equal. lia.
Qed.

Lemma keys_enumerate (elems : list json) : forall s k,
  In k (map_keys (enumerate_from s elems)) -> exists i, k = index_key (s + i).
Proof.
  induction elems as [|e rest IH]; intros s k; simpl; [contradiction|].
  intros [<-|H].
  - exists 0. rewrite Nat.add_0_r. reflexivity.
  - destruct (IH (S s) k H) as [i ->]. exists (S i). f_equal. lia.
Qed.

Lemma keys_enumerate_NoDup (elems : list json) : forall s,
  NoDup (map_keys (enumerate_from s elems)).
Proof.
  induction elems as [|e rest IH]; intros s; simpl; constructor.
  - intros H. apply keys_enumerate in H as [i Hi].
    apply index_key_inj in Hi. lia.
  - apply IH.
Qed.

(** The mapping made from an array: element [i] under the decimal text of [i]. *)
Lemma readProperties_array (elems : list json) :
  exists props,
    readProperties (JArray elems) = Ok props /\
    forall i, map_find (index_key i) props = option_map decodeValue (nth_error elems i).
Proof.
  eexists; split; [apply readProperties_items|].
  intros i. simpl items.
  rewrite map_find_of_list, last_occurrence_NoDup.
  - rewrite map_find_map. f_equal. apply (map_find_enumerate elems 0 i).
  - rewrite map_keys_map. apply keys_enumerate_NoDup.
Qed.

(** C3, as the code has it. The mapping decoded from an object, at the top
    of "properties" and at every level below, is a [std::map]: whatever the
    order of the members in the source text, its keys come in ascending
    byte order (the order in which the document tree holds them), and a key
    written more than once keeps its last value. *)
Theorem properties_sorted_last_wins (members : list (string * json)) :
  exists props,
    readProperties (object_of_members members) = Ok props /\
    readProperty (object_of_members members) = Ok (VMapping props) /\
    ascending (map_keys props) /\
    NoDup (map_keys props) /\
    map_keys props = map_keys (map_of_list members) /\
    (forall key,
        map_find key props = option_map decodeValue (last_occurrence key members)).
Proof.
  exists (map (fun kv => (fst kv, decodeValue (snd kv))) (map_of_list members)).
  assert (Hsame : map_of_list (map (fun kv => (fst kv, decodeValue (snd kv)))
                                  (map_of_list members))
                  = map (fun kv => (fst kv, decodeValue (snd kv))) (map_of_list members)).
  { apply map_of_list_ascending. rewrite map_keys_map. apply ascending_of_list. }
  split; [|split; [|split; [|split; [|split]]]].
  - rewrite readProperties_items. simpl items. rewrite Hsame. reflexivity.
  - rewrite readProperty_decodeValue. simpl. rewrite Hsame. reflexivity.
  - rewrite map_keys_map. apply ascending_of_list.
  - rewrite map_keys_map. apply ascending_NoDup, ascending_of_list.
  - apply map_keys_map.
  - intros key. rewrite map_find_map, map_find_of_list. reflexivity.
Qed.

(** C3 as stated fails on an object written with the key "b" before the key
    "a": the mapping lists "a" first. *)
Lemma properties_order_not_preserved :
  exists props,
    readProperties (object_of_members [("b", JInteger 1); ("a", JInteger 2)]) = Ok props /\
    map_keys props = ["a"; "b"] /\
    map_keys props <> map fst [("b", JInteger 1); ("a", JInteger 2)].
Proof.
  eexists; split; [reflexivity|]. split; [reflexivity|].
  intros H; discriminate H.
Qed.

(** C6, as the code has it. In a Feature that has both entries, the geometry
    is decoded first and kept as it is, and "properties" is decoded by
    visiting its items: null, and an empty array, give the empty mapping; a
    scalar gives one entry under the empty key; an array gives one entry per
    element, under the decimal text of its index. *)
Theorem readFeature_properties_policy
        (members : map_t json) (g p : json) (geo : Geometry) :
  map_find "geometry" members = Some g ->
  map_find "properties" members = Some p ->
  readGeometry g = Ok geo ->
  exists props,
    readFeature (JObject members) = Ok (mkFeature geo props) /\
    (p = JNull -> props = []) /\
    (p = JArray [] -> props = []) /\
    (is_scalar p = true -> props = [("", decodeValue p)]) /\
    (forall elems, p = JArray elems ->
       forall i, map_find (index_key i) props
                 = option_map decodeValue (nth_error elems i)).
Proof.
  intros Hg Hp Hgeo.
  exists (map_of_list (map (fun kv => (fst kv, decodeValue (snd kv))) (items p))).
  split; [|split; [|split; [|split]]].
  - unfold readFeature; simpl. rewrite Hg; simpl. rewrite Hgeo; simpl.
    rewrite Hp; simpl. rewrite readProperties_items. reflexivity.
  - intros ->. reflexivity.
  - intros ->. reflexivity.
  - intros Hs. destruct p; simpl in Hs; try discriminate; reflexivity.
  - intros elems -> i.
    destruct (readProperties_array elems) as [props [Hprops Hfind]].
    rewrite readProperties_items in Hprops. injection Hprops as <-. apply Hfind.
Qed.

Lemma readFeature_properties_policy_witness :
  exists props,
    readFeature (JObject [("geometry", JObject [("coordinates", JArray []);
                                                  ("type", JString "Point")]);
                          ("properties", JNull)])
    = Ok (mkFeature (Point None) props) /\
    props = [].
Proof.
  destruct (readFeature_properties_policy
              [("geometry", JObject [("coordinates", JArray []); ("type", JString "Point")]);
               ("properties", JNull)]
              (JObject [("coordinates", JArray []); ("type", JString "Point")])
              JNull (Point None) eq_refl eq_refl eq_refl)
    as [props [Hf [Hnull _]]].
  exists props. split; [exact Hf | exact (Hnull eq_refl)].
Defined.

(** C6 as stated fails on a Feature whose "properties" is a number: the
    mapping has one entry, under the empty key. *)
Lemma scalar_properties_not_empty :
  exists feature,
    readFeature (JObject [("geometry", JObject [("coordinates", JArray []);
                                                  ("type", JString "Point")]);
                          ("properties", JInteger 5)])
    = Ok feature /\
    geometry feature = Point None /\
    properties feature = [("", VNumber (double_of_Z 5))] /\
    properties feature <> [].
Proof.
  eexists; split; [reflexivity|]. repeat split. intros H; discriminate H.
Qed.

(** ** The call budget is never used up *)

Lemma bind_in_budget {A B} (m : outcome A) (k : A -> outcome B) :
  m <> OutOfFuel -> (forall a, k a <> OutOfFuel) -> bind m k <> OutOfFuel.
Proof.
  intros Hm Hk. destruct m; simpl; try discriminate; [apply Hk | contradiction].
Qed.

Lemma for_each_in_budget {A B} (f : A -> outcome B) (l : list A) :
  (forall a, In a l -> f a <> OutOfFuel) -> for_each f l <> OutOfFuel.
Proof.
  induction l as [|a rest IH]; simpl; intros H; [discriminate|].
  apply bind_in_budget; [apply H; left; reflexivity|].
  intros b. apply bind_in_budget; [|discriminate].
  apply IH. intros c Hc. apply H. right; exact Hc.
Qed.

Lemma get_vector_in_budget {T} (get : json -> outcome T) (j : json) :
  (forall a, get a <> OutOfFuel) -> get_vector get j <> OutOfFuel.
Proof.
  intros H. destruct j; simpl; try discriminate.
  apply for_each_in_budget. intros a _. apply H.
Qed.

Lemma index_const_in_budget (j : json) (key : string) : index_const j key <> OutOfFuel.
Proof.
  destruct j; simpl; try discriminate. destruct (map_find key members); discriminate.
Qed.

Lemma get_double_in_budget (j : json) : get_double j <> OutOfFuel.
Proof. destruct j; discriminate. Qed.

Lemma at_index_in_budget (j : json) (i : nat) : at_index j i <> OutOfFuel.
Proof.
  destruct j; simpl; try discriminate. destruct (nth_error elems i); discriminate.
Qed.

Lemma get_pair_in_budget (j : json) : get_pair j <> OutOfFuel.
Proof.
  unfold get_pair.
  repeat first [ apply bind_in_budget; [|intros ?]
               | apply at_index_in_budget | apply get_double_in_budget | discriminate ].
Qed.

Lemma vector_index_in_budget {A} (v : list A) (i : nat) : vector_index v i <> OutOfFuel.
Proof. unfold vector_index. destruct (nth_error v i); discriminate. Qed.

Lemma vector_from_second_in_budget {A} (v : list A) : vector_from_second v <> OutOfFuel.
Proof. destruct v; discriminate. Qed.

Ltac in_budget :=
  repeat first
    [ discriminate
    | apply index_const_in_budget
    | apply get_pair_in_budget
    | apply get_double_in_budget
    | apply vector_index_in_budget
    | apply vector_from_second_in_budget
    | apply get_vector_in_budget; intros ?
    | apply for_each_in_budget; intros ? _
    | apply bind_in_budget; [|intros ?]
    | match goal with |- (if ?b then _ else _) <> _ => destruct b end ].

Lemma readGeometry_fuel_in_budget : forall n j,
  json_depth j < n -> readGeometry_fuel n j <> OutOfFuel.
Proof.
  induction n as [|n IH]; intros j Hn; [lia|]. simpl.
  unfold readGeometry_body.
  apply bind_in_budget; [apply index_const_in_budget|]. intros t.
  apply bind_in_budget; [destruct t; discriminate|]. intros type.
  repeat (match goal with |- (if ?b then _ else _) <> _ => destruct b end);
    try discriminate;
    try (unfold readPoint, readLineString, readPolygon, readMultiPoint,
           readMultiLineString, readMultiPolygon, readMultiPolygon_element;
         in_budget; fail).
  unfold readGeometryCollection.
  destruct j; simpl; try discriminate.
  destruct (map_find "geometries" members) as [v|] eqn:Hv; simpl; [|discriminate].
  apply depth_member in Hv.
  apply bind_in_budget; [|discriminate].
  apply for_each_in_budget. intros a Ha. apply depth_elements in Ha.
  apply IH. lia.
Qed.

(** [readGeometry] returns, throws or leaves defined behaviour; it never
    stops for lack of budget. *)
Lemma readGeometry_in_budget (j : json) : readGeometry j <> OutOfFuel.
Proof. apply readGeometry_fuel_in_budget. lia. Qed.

(** ** The documents of section 8 *)

Example feature_with_properties :
  readFeatures
    (fun _ => inl (object_of_members
       [("type", JString "Feature");
        ("geometry", object_of_members
           [("type", JString "Point");
            ("coordinates", JArray [JFloat (double_of_Z 1); JFloat (double_of_Z 2)])]);
        ("properties", object_of_members
           [("name", JString "x");
            ("tags", JArray [JString "a"; JString "b"]);
            ("n", JNull)])]))
    "document"
  = Ok (mkFeatureCollection
          [mkFeature
             (Point (Some (mkCoordinate (double_of_Z 1) (double_of_Z 2))))
             [("n", VNull); ("name", VString "x");
              ("tags", VSequence [VString "a"; VString "b"])]]).
Proof. reflexivity. Qed.

Example feature_collection_in_order :
  read
    (fun _ => inl (object_of_members
       [("type", JString "FeatureCollection");
        ("features", JArray
           [object_of_members
              [("type", JString "Feature");
               ("geometry", object_of_members
                  [("type", JString "Point"); ("coordinates", JArray [])]);
               ("properties", JNull)];
            object_of_members
              [("type", JString "Feature");
               ("geometry", object_of_members
                  [("type", JString "Polygon"); ("coordinates", JArray [])]);
               ("properties", JNull)]])]))
    "document"
  = Ok (GeometryCollection [Point None; Polygon None []]).
Proof. reflexivity. Qed.

Example unknown_top_level_kind :
  read (fun _ => inl (object_of_members [("type", JString "Circle")])) "document"
  = Throw (ParseException "Unknown geometry type!").
Proof. reflexivity. Qed.

(** ** Further properties of the reader *)

Lemma bind_Ok_inv {A B} (m : outcome A) (k : A -> outcome B) (b : B) :
  bind m k = Ok b -> exists a, m = Ok a /\ k a = Ok b.
Proof.
  destruct m; simpl; intros H; try discriminate. exists a. split; [reflexivity | exact H].
Qed.

Lemma for_each_Ok_iff {A B} (f : A -> outcome B) (l : list A) (bs : list B) :
  for_each f l = Ok bs <-> Forall2 (fun a b => f a = Ok b) l bs.
Proof.
  revert bs. induction l as [|a rest IH]; intros bs; simpl.
  - split.
    + intros H; injection H as <-. constructor.
    + intros H; inversion H. reflexivity.
  - split.
    + intros H. apply bind_Ok_inv in H as [b [Hb H]].
      apply bind_Ok_inv in H as [bs' [Hbs H]]. injection H as <-.
      constructor; [exact Hb | apply IH; exact Hbs].
    + intros H. inversion H as [|? b ? bs' Hb Hrest]; subst.
      rewrite Hb; simpl. apply IH in Hrest. rewrite Hrest. reflexivity.
Qed.

Lemma for_each_Throw {A B} (f : A -> outcome B) (pre post : list A) (a : A) (e : exn) :
  Forall (fun x => exists b, f x = Ok b) pre -> f a = Throw e ->
  for_each f (pre ++ a :: post) = Throw e.
Proof.
  intros Hpre Ha. induction Hpre as [|x pre' [b Hx] _ IH]; simpl.
  - rewrite Ha. reflexivity.
  - rewrite Hx; simpl. rewrite IH. reflexivity.
Qed.

Lemma for_each_Undefined {A B} (f : A -> outcome B) (pre post : list A) (a : A)
      (u : undefined) :
  Forall (fun x => exists b, f x = Ok b) pre -> f a = Undefined u ->
  for_each f (pre ++ a :: post) = Undefined u.
Proof.
  intros Hpre Ha. induction Hpre as [|x pre' [b Hx] _ IH]; simpl.
  - rewrite Ha. reflexivity.
  - rewrite Hx; simpl. rewrite IH. reflexivity.
Qed.

Lemma elements_enumerate (l : list json) : forall i, map snd (enumerate_from i l) = l.
Proof.
  induction l as [|a rest IH]; intros i; simpl; [reflexivity|]. rewrite IH. reflexivity.
Qed.

Lemma elements_array (l : list json) : elements (JArray l) = l.
Proof. apply elements_enumerate. Qed.

(** X1. Neither entry point lets an exception of the JSON library reach the
    caller: whatever the parser and the text, the outcome is never a thrown
    [json::exception]. *)
Theorem entry_points_hide_json_exceptions
        (json_parse : string -> json + (nat * string)) (text : string)
        (e : json_exception) :
  read json_parse text <> Throw (JsonException e) /\
  readFeatures json_parse text <> Throw (JsonException e).
Proof.
  unfold read, readFeatures, try_catch_json. split.
  - match goal with |- match ?b with _ => _ end <> _ => destruct b as [?|[?|?]|?|] end;
      discriminate.
  - match goal with |- match ?b with _ => _ end <> _ => destruct b as [?|[?|?]|?|] end;
      discriminate.
Qed.

(** X2. When the outer node declares no "type" string (it is no object, the
    key is missing, or its value is not a string), both entry points throw
    the document-level error. *)
Theorem entry_points_need_type_string
        (json_parse : string -> json + (nat * string)) (text : string) (j : json) :
  json_parse text = inl j -> declared_type j = None ->
  read json_parse text = Throw (ParseException "Error parsing JSON") /\
  readFeatures json_parse text = Throw (ParseException "Error parsing JSON").
Proof.
  intros H Hd. unfold read, readFeatures, parse. rewrite H.
  destruct j; simpl in *; try (split; reflexivity).
  destruct (map_find "type" members) as [t|]; [|split; reflexivity].
  destruct t; simpl; try discriminate; split; reflexivity.
Qed.

Lemma entry_points_need_type_string_witness :
  read (fun _ => inl (JObject [("coordinates", JArray []); ("type", JInteger 7)])) "document"
  = Throw (ParseException "Error parsing JSON").
Proof.
  exact (proj1 (entry_points_need_type_string
                  (fun _ => inl (JObject [("coordinates", JArray []); ("type", JInteger 7)]))
                  "document"
                  (JObject [("coordinates", JArray []); ("type", JInteger 7)])
                  eq_refl eq_refl)).
Defined.

(** X3. On an object of the document tree (members by ascending key) the
    properties mapping has exactly the keys of the object, in the same
    order, and looking a key up in the mapping gives the decoded value of
    the member the object has under that key. *)
Theorem readProperties_of_object (members : map_t json) :
  ascending (map_keys members) ->
  exists props,
    readProperties (JObject members) = Ok props /\
    map_keys props = map_keys members /\
    (forall key, map_find key props = option_map decodeValue (map_find key members)) /\
    Forall2 (fun member entry => readProperty (snd member) = Ok (snd entry)) members props.
Proof.
  intros Hasc.
  exists (map (fun kv => (fst kv, decodeValue (snd kv))) members).
  split; [|split; [|split]].
  - rewrite readProperties_items. simpl items.
    rewrite map_of_list_ascending; [reflexivity|]. rewrite map_keys_map. exact Hasc.
  - apply map_keys_map.
  - intros key. apply map_find_map.
  - clear Hasc. induction members as [|kv rest IH]; simpl; constructor.
    + apply readProperty_decodeValue.
    + exact IH.
Qed.

Lemma readProperties_of_object_witness :
  exists props,
    readProperties (JObject [("a", JBoolean true); ("b", JArray [JNull])]) = Ok props /\
    map_keys props = ["a"; "b"].
Proof.
  destruct (readProperties_of_object [("a", JBoolean true); ("b", JArray [JNull])]
              (conj eq_refl I)) as [props [H [Hk _]]].
  exists props. split; [exact H | exact Hk].
Defined.

Lemma zero_ring_dec (l : list json) :
  Forall (fun q => array_elems q <> []) l \/ Exists (fun q => array_elems q = []) l.
Proof.
  induction l as [|q rest [IH|IH]].
  - left; constructor.
  - destruct (array_elems q) eqn:Hq.
    + right; left; exact Hq.
    + left; constructor; [congruence | exact IH].
  - right; right; exact IH.
Qed.

(** X4. For each of the six kinds that carry coordinates, the decoder
    returns a geometry exactly when the "coordinates" value has the shape of
    the kind and is in the decoder's domain (a Point not of one ordinate, a
    MultiPolygon without an element of zero rings); the geometry is then the
    one built from the first two values of every leaf, in document order. *)
Theorem coordinates_decode_iff (members : map_t json) (k : kind) (c : json) (g : Geometry) :
  map_find "type" members = Some (JString (kind_name k)) ->
  map_find "coordinates" members = Some c ->
  (readGeometry (JObject members) = Ok g <->
   shaped k c = true /\ in_domain k c /\ g = geometry_of k c).
Proof.
  intros Ht Hc. split.
  - intros H.
    destruct (shaped k c) eqn:Hs.
    2:{ destruct (readGeometry_misshapen members k c Ht Hc Hs) as [e He].
        rewrite He in H. discriminate. }
    assert (Hd : in_domain k c).
    { destruct k; simpl; trivial.
      - destruct c; simpl in Hs; try discriminate.
        rewrite (readGeometry_typed members _ Ht) in H. simpl in H.
        rewrite (readPoint_numbers members elems Hc Hs) in H.
        destruct elems as [|a [|b rest]]; simpl in H |- *;
          [discriminate | discriminate H | discriminate].
      - destruct (zero_ring_dec (array_elems c)) as [Hall|Hex]; [exact Hall|].
        rewrite (readGeometry_typed members _ Ht) in H. simpl in H.
        rewrite (readMultiPolygon_empty_element members c Hc Hs Hex) in H. discriminate. }
    rewrite (readGeometry_shaped members k c Ht Hc Hs Hd) in H. injection H as <-.
    repeat split; assumption.
  - intros [Hs [Hd ->]]. apply readGeometry_shaped; assumption.
Qed.

Lemma coordinates_decode_iff_witness :
  shaped KMultiLineString (JArray [JArray [JArray [JInteger 1; JInteger 2];
                                           JArray [JInteger 3; JInteger 4]]]) = true /\
  readGeometry (JObject [("coordinates", JArray [JArray [JArray [JInteger 1; JInteger 2];
                                                         JArray [JInteger 3; JInteger 4]]]);
                         ("type", JString "MultiLineString")])
  = Ok (MultiLineString [LineString [mkCoordinate (double_of_Z 1) (double_of_Z 2);
                                     mkCoordinate (double_of_Z 3) (double_of_Z 4)]]).
Proof.
  split; [reflexivity|].
  apply (proj2 (coordinates_decode_iff
                  [("coordinates", JArray [JArray [JArray [JInteger 1; JInteger 2];
                                                   JArray [JInteger 3; JInteger 4]]]);
                   ("type", JString "MultiLineString")]
                  KMultiLineString
                  (JArray [JArray [JArray [JInteger 1; JInteger 2];
                                   JArray [JInteger 3; JInteger 4]]])
                  _ eq_refl eq_refl)).
  repeat split.
Defined.

Ltac invert_ok H :=
  repeat first
    [ discriminate H
    | match type of H with
      | bind ?m _ = Ok _ => destruct m; simpl in H
      | (if ?b then _ else _) = Ok _ => destruct b
      end ].

(** X5. A geometry returned for a node is of the kind the node declares:
    [getGeometryType] of the result is the "type" string, for all seven
    kinds. *)
Theorem decoded_kind_matches (members : map_t json) (type : string) (g : Geometry) :
  map_find "type" members = Some (JString type) ->
  readGeometry (JObject members) = Ok g ->
  getGeometryType g = type.
Proof.
  intros Ht H. rewrite (readGeometry_typed members type Ht) in H.
  repeat match type of H with
         | (if ?t =? ?s then _ else _) = Ok _ =>
             let E := fresh "E" in
             destruct (t =? s) eqn:E;
             [apply String.eqb_eq in E; subst type | clear E]
         end;
    try discriminate H;
    unfold readPoint, readLineString, readPolygon, readMultiPoint, readMultiLineString,
      readMultiPolygon, readGeometryCollection in H;
    invert_ok H; injection H as <-; reflexivity.
Qed.

Lemma decoded_kind_matches_witness :
  getGeometryType (Polygon None []) = "Polygon".
Proof.
  exact (decoded_kind_matches
           [("coordinates", JArray []); ("type", JString "Polygon")] "Polygon"
           (Polygon None []) eq_refl eq_refl).
Defined.

Lemma geometry_kind_cases (type : string) :
  is_geometry_kind type = true -> In type geometry_kinds.
Proof.
  unfold is_geometry_kind. intros H. apply existsb_exists in H as [s [Hin Hs]].
  apply String.eqb_eq in Hs. subst s. exact Hin.
Qed.

(** X6. A geometry node that declares one of the seven kinds but lacks the
    field the kind reads ("geometries" for a collection, "coordinates"
    otherwise) is looked up through a const reference: the outcome is outside
    defined behaviour, it is no exception, and so the entry points do not
    turn it into an error either. *)
Theorem missing_required_field (members : map_t json) (type : string) :
  map_find "type" members = Some (JString type) ->
  is_geometry_kind type = true ->
  map_find (required_field type) members = None ->
  readGeometry (JObject members) = Undefined (AbsentKey (required_field type)) /\
  (forall (json_parse : string -> json + (nat * string)) (text : string),
      json_parse text = inl (JObject members) ->
      read json_parse text = Undefined (AbsentKey (required_field type)) /\
      readFeatures json_parse text = Undefined (AbsentKey (required_field type))).
Proof.
  intros Ht Hk Hf.
  assert (Hg : readGeometry (JObject members) = Undefined (AbsentKey (required_field type))).
  { rewrite (readGeometry_typed members type Ht).
    apply geometry_kind_cases in Hk. simpl in Hk.
    repeat (destruct Hk as [<-|Hk]; [unfold required_field in Hf |- *; simpl in Hf |- *;
      unfold readPoint, readLineString, readPolygon, readMultiPoint, readMultiLineString,
        readMultiPolygon, readGeometryCollection; simpl; rewrite Hf; reflexivity|]).
    contradiction. }
  split; [exact Hg|].
  intros json_parse text H.
  assert (Hbare : (type =? "Feature") = false /\ (type =? "FeatureCollection") = false).
  { apply geometry_kind_cases in Hk. simpl in Hk.
    repeat (destruct Hk as [<-|Hk]; [split; reflexivity|]). contradiction. }
  destruct Hbare as [Hfe Hfc].
  destruct (entry_bare_geometry json_parse text members type H Ht Hfe Hfc) as [-> ->].
  rewrite Hg. split; reflexivity.
Qed.

Lemma missing_required_field_witness :
  readGeometry (JObject [("type", JString "GeometryCollection")])
  = Undefined (AbsentKey "geometries").
Proof.
  exact (proj1 (missing_required_field [("type", JString "GeometryCollection")]
                  "GeometryCollection" eq_refl eq_refl eq_refl)).
Defined.

(** X7. The geometry decoder reads three members of a node and no other:
    two nodes that have the same "type", "coordinates" and "geometries"
    decode alike, whatever else they hold. *)
Theorem readGeometry_reads_three_fields (members1 members2 : map_t json) :
  map_find "type" members1 = map_find "type" members2 ->
  map_find "coordinates" members1 = map_find "coordinates" members2 ->
  map_find "geometries" members1 = map_find "geometries" members2 ->
  readGeometry (JObject members1) = readGeometry (JObject members2).
Proof.
  intros Ht Hc Hg. rewrite !readGeometry_unfold.
  unfold readGeometry_body, readPoint, readLineString, readPolygon, readMultiPoint,
    readMultiLineString, readMultiPolygon, readGeometryCollection. simpl.
  rewrite Ht, Hc, Hg. reflexivity.
Qed.

Lemma readGeometry_reads_three_fields_witness :
  readGeometry (JObject [("bbox", JArray [JInteger 0; JInteger 0; JInteger 1; JInteger 1]);
                         ("coordinates", JArray [JInteger 0; JInteger 1]);
                         ("type", JString "Point")])
  = readGeometry (JObject [("coordinates", JArray [JInteger 0; JInteger 1]);
                           ("type", JString "Point")]).
Proof.
  exact (readGeometry_reads_three_fields
           [("bbox", JArray [JInteger 0; JInteger 0; JInteger 1; JInteger 1]);
            ("coordinates", JArray [JInteger 0; JInteger 1]);
            ("type", JString "Point")]
           [("coordinates", JArray [JInteger 0; JInteger 1]); ("type", JString "Point")]
           eq_refl eq_refl eq_refl).
Defined.

Lemma readGeometryCollection_array (members : map_t json) (gs : list json) :
  map_find "type" members = Some (JString "GeometryCollection") ->
  map_find "geometries" members = Some (JArray gs) ->
  readGeometry (JObject members)
  = (geometries <- for_each readGeometry gs ;; Ok (createGeometryCollection geometries)).
Proof.
  intros Ht Hg. rewrite (readGeometry_typed members _ Ht). simpl.
  unfold readGeometryCollection. simpl. rewrite Hg. simpl.
  rewrite elements_array. reflexivity.
Qed.

(** X8. A GeometryCollection over an array decodes element by element, in
    document order: it returns the collection of the geometries [geos]
    exactly when every element decodes to the geometry at its position. *)
Theorem geometry_collection_elementwise
        (members : map_t json) (gs : list json) (geos : list Geometry) :
  map_find "type" members = Some (JString "GeometryCollection") ->
  map_find "geometries" members = Some (JArray gs) ->
  (readGeometry (JObject members) = Ok (GeometryCollection geos) <->
   Forall2 (fun g geo => readGeometry g = Ok geo) gs geos).
Proof.
  intros Ht Hg. rewrite (readGeometryCollection_array members gs Ht Hg).
  rewrite <- for_each_Ok_iff. split.
  - intros H. apply bind_Ok_inv in H as [geos' [Hf H]].
    injection H as <-. exact Hf.
  - intros H. rewrite H. reflexivity.
Qed.

Lemma geometry_collection_elementwise_witness :
  readGeometry
    (JObject [("geometries",
               JArray [JObject [("coordinates", JArray []); ("type", JString "Point")];
                       JObject [("coordinates", JArray []); ("type", JString "Polygon")]]);
              ("type", JString "GeometryCollection")])
  = Ok (GeometryCollection [Point None; Polygon None []]).
Proof.
  apply (proj2 (geometry_collection_elementwise
                  [("geometries",
                    JArray [JObject [("coordinates", JArray []); ("type", JString "Point")];
                            JObject [("coordinates", JArray []); ("type", JString "Polygon")]]);
                   ("type", JString "GeometryCollection")]
                  [JObject [("coordinates", JArray []); ("type", JString "Point")];
                   JObject [("coordinates", JArray []); ("type", JString "Polygon")]]
                  [Point None; Polygon None []] eq_refl eq_refl)).
  repeat constructor.
Defined.

(** X9. A GeometryCollection gives no partial result: when the elements
    before some element decode and that element throws, the collection
    throws the same exception; when it leaves defined behaviour, so does the
    collection. Elements after it are not looked at. *)
Theorem geometry_collection_fails_fast
        (members : map_t json) (pre post : list json) (g : json) :
  map_find "type" members = Some (JString "GeometryCollection") ->
  map_find "geometries" members = Some (JArray (pre ++ g :: post)) ->
  Forall (fun x => exists geo, readGeometry x = Ok geo) pre ->
  (forall e, readGeometry g = Throw e -> readGeometry (JObject members) = Throw e) /\
  (forall u, readGeometry g = Undefined u ->
             readGeometry (JObject members) = Undefined u).
Proof.
  intros Ht Hg Hpre. rewrite (readGeometryCollection_array members _ Ht Hg). split.
  - intros e He. rewrite (for_each_Throw readGeometry pre post g e Hpre He). reflexivity.
  - intros u Hu. rewrite (for_each_Undefined readGeometry pre post g u Hpre Hu). reflexivity.
Qed.

Lemma geometry_collection_fails_fast_witness :
  readGeometry
    (JObject [("geometries",
               JArray [JObject [("coordinates", JArray []); ("type", JString "Point")];
                       JObject [("coordinates", JArray []); ("type", JString "Circle")];
                       JNull]);
              ("type", JString "GeometryCollection")])
  = Throw (ParseException "Unknown geometry type!").
Proof.
  assert (Hpre : Forall (fun x => exists geo, readGeometry x = Ok geo)
                        [JObject [("coordinates", JArray []); ("type", JString "Point")]]).
  { constructor; [exists (Point None); reflexivity | constructor]. }
  apply (proj1 (geometry_collection_fails_fast
                  [("geometries",
                    JArray [JObject [("coordinates", JArray []); ("type", JString "Point")];
                            JObject [("coordinates", JArray []); ("type", JString "Circle")];
                            JNull]);
                   ("type", JString "GeometryCollection")]
                  [JObject [("coordinates", JArray []); ("type", JString "Point")]]
                  [JNull]
                  (JObject [("coordinates", JArray []); ("type", JString "Circle")])
                  eq_refl eq_refl Hpre)).
  reflexivity.
Defined.

Lemma readFeature_geometry (j : json) (feature : GeoJSONFeature) :
  readFeature j = Ok feature -> readFeatureForGeometry j = Ok (geometry feature).
Proof.
  unfold readFeature, readFeatureForGeometry. intros H.
  apply bind_Ok_inv in H as [gj [Hgj H]]. rewrite Hgj. simpl.
  apply bind_Ok_inv in H as [geo [Hgeo H]]. rewrite Hgeo.
  apply bind_Ok_inv in H as [p [_ H]].
  apply bind_Ok_inv in H as [m [_ H]]. injection H as <-. reflexivity.
Qed.

Lemma readFeatures_geometries (l : list json) (fl : list GeoJSONFeature) :
  for_each readFeature l = Ok fl ->
  for_each readFeatureForGeometry l = Ok (map geometry fl).
Proof.
  rewrite !for_each_Ok_iff. induction 1 as [|j f l' fl' Hj _ IH]; simpl; constructor.
  - apply readFeature_geometry, Hj.
  - exact IH.
Qed.

(** X10. Decoding to geometry agrees with decoding to features: whenever
    [readFeatures] returns a collection for a text, [read] returns for the
    same text the geometries of those features, in the same order: the one
    geometry of a Feature or of a bare geometry, and the GeometryCollection
    of all of them for a FeatureCollection. *)
Theorem features_then_geometry
        (json_parse : string -> json + (nat * string)) (text : string) (j : json)
        (fc : GeoJSONFeatureCollection) :
  json_parse text = inl j ->
  readFeatures json_parse text = Ok fc ->
  exists type,
    declared_type j = Some type /\
    read json_parse text = Ok (collapse type fc).
Proof.
  intros Hp H. unfold readFeatures, read, parse in *. rewrite Hp in *. simpl in *.
  destruct j; simpl in *; try discriminate.
  destruct (map_find "type" members) as [t|]; simpl in *; [|discriminate].
  destruct t; simpl in *; try discriminate.
  exists s. split; [reflexivity|]. unfold collapse.
  destruct (s =? "Feature") eqn:Efe.
  - apply String.eqb_eq in Efe. subst s. simpl.
    destruct (readFeature (JObject members)) as [f|[e|msg]|u|] eqn:Hf;
      simpl in H; try discriminate.
    injection H as <-. simpl.
    rewrite (readFeature_geometry _ f Hf). reflexivity.
  - destruct (s =? "FeatureCollection") eqn:Efc.
    + unfold readFeatureCollection, readFeatureCollectionForGeometry in *.
      destruct (index_const (JObject members) "features") as [fj|[e|msg]|u|];
        simpl in *; try discriminate.
      destruct (for_each readFeature (elements fj)) as [fl|[e|msg]|u|] eqn:Hfl;
        simpl in H; try discriminate.
      injection H as <-. simpl.
      rewrite (readFeatures_geometries _ fl Hfl). reflexivity.
    + destruct (readGeometry (JObject members)) as [g|[e|msg]|u|];
        simpl in *; try discriminate.
      injection H as <-. reflexivity.
Qed.

Lemma features_then_geometry_witness :
  read (fun _ => inl (JObject [("features",
                                JArray [JObject [("geometry",
                                                  JObject [("coordinates", JArray []);
                                                           ("type", JString "Point")]);
                                                 ("properties", JNull);
                                                 ("type", JString "Feature")]]);
                               ("type", JString "FeatureCollection")])) "document"
  = Ok (GeometryCollection [Point None]).
Proof.
  destruct (features_then_geometry
              (fun _ => inl (JObject [("features",
                                JArray [JObject [("geometry",
                                                  JObject [("coordinates", JArray []);
                                                           ("type", JString "Point")]);
                                                 ("properties", JNull);
                                                 ("type", JString "Feature")]]);
                               ("type", JString "FeatureCollection")]))
              "document" _ (mkFeatureCollection [mkFeature (Point None) []])
              eq_refl eq_refl) as [type [Hd Hr]].
  injection Hd as <-. exact Hr.
Defined.

(** X11. The two entry points part on a Feature that has no "properties"
    key: when its geometry decodes, [read] returns that geometry, while
    [readFeatures] looks "properties" up through a const reference and leaves
    defined behaviour. *)
Theorem feature_without_properties
        (json_parse : string -> json + (nat * string)) (text : string)
        (members : map_t json) (g : json) (geo : Geometry) :
  json_parse text = inl (JObject members) ->
  map_find "type" members = Some (JString "Feature") ->
  map_find "geometry" members = Some g ->
  readGeometry g = Ok geo ->
  map_find "properties" members = None ->
  read json_parse text = Ok geo /\
  readFeatures json_parse text = Undefined (AbsentKey "properties").
Proof.
  intros Hp Ht Hg Hgeo Hprops. unfold read, readFeatures, parse. rewrite Hp. simpl.
  rewrite Ht. simpl. unfold readFeatureForGeometry, readFeature. simpl.
  rewrite Hg. simpl. rewrite Hgeo. simpl. rewrite Hprops. split; reflexivity.
Qed.

Lemma feature_without_properties_witness :
  readFeatures (fun _ => inl (JObject [("geometry", JObject [("coordinates", JArray []);
                                                             ("type", JString "Point")]);
                                       ("type", JString "Feature")])) "document"
  = Undefined (AbsentKey "properties").
Proof.
  exact (proj2 (feature_without_properties
                  (fun _ => inl (JObject [("geometry", JObject [("coordinates", JArray []);
                                                                ("type", JString "Point")]);
                                          ("type", JString "Feature")]))
                  "document"
                  [("geometry", JObject [("coordinates", JArray []); ("type", JString "Point")]);
                   ("type", JString "Feature")]
                  (JObject [("coordinates", JArray []); ("type", JString "Point")])
                  (Point None) eq_refl eq_refl eq_refl eq_refl eq_refl)).
Defined.



(** ** The registry of geometry functions *)

Lemma ascending_head_absent (key k0 : string) (keys : list string) :
  ascending (k0 :: keys) -> String.compare key k0 = Lt -> ~ In key (k0 :: keys).
Proof.
  intros Hasc Hlt [->|Hin].
  - rewrite compare_refl in Hlt. discriminate.
  - pose proof (ascending_Forall k0 keys Hasc) as HF.
    rewrite Forall_forall in HF. specialize (HF key Hin).
    pose proof (compare_lt_trans key k0 key Hlt HF) as Hc.
    rewrite compare_refl in Hc. discriminate.
Qed.

Section insert_facts.
Context {V : Type}.
Implicit Types (m : map_t V) (k key : string) (v : V).

Lemma ascending_tail k0 (w : V) m :
  ascending (map_keys ((k0, w) :: m)) -> ascending (map_keys m).
Proof.
  intros H. change (ascending (k0 :: map_keys m)) in H.
  apply ascending_cons in H. apply H.
Qed.

Lemma map_find_insert k key v m :
  ascending (map_keys m) ->
  map_find k (map_insert key v m)
  = match map_find k m with
    | Some w => Some w
    | None => if k =? key then Some v else None
    end.
Proof.
  induction m as [|[k0 w] rest IH]; intros Hasc.
  - reflexivity.
  - cbn [map_insert]. destruct (String.compare key k0) eqn:Hc.
    + apply String.compare_eq_iff in Hc. subst k0. simpl.
      destruct (k =? key); [reflexivity|]. destruct (map_find k rest); reflexivity.
    + cbn [map_find]. destruct (k =? key) eqn:Hk.
      * apply String.eqb_eq in Hk. subst k.
        rewrite (compare_neq key k0) by congruence.
        rewrite (map_find_None key rest); [reflexivity|].
        intros Hin. apply (ascending_head_absent key k0 (map_keys rest) Hasc Hc).
        right; exact Hin.
      * destruct (k =? k0); [reflexivity|]. destruct (map_find k rest); reflexivity.
    + cbn [map_find]. destruct (k =? k0); [reflexivity|].
      apply IH. exact (ascending_tail k0 w rest Hasc).
Qed.

Lemma below_insert k key v m :
  String.compare k key = Lt -> below k (map_keys m) ->
  below k (map_keys (map_insert key v m)).
Proof.
  intros Hlt Hb. destruct m as [|[k0 w] rest]; simpl; [exact Hlt|].
  destruct (String.compare key k0); simpl; assumption.
Qed.

Lemma ascending_insert key v m :
  ascending (map_keys m) -> ascending (map_keys (map_insert key v m)).
Proof.
  induction m as [|[k0 w] rest IH]; intros Hasc.
  - simpl; exact I.
  - pose proof Hasc as Hasc'.
    change (map_keys ((k0, w) :: rest)) with (k0 :: map_keys rest) in Hasc.
    apply ascending_cons in Hasc as [Hb Hrest].
    cbn [map_insert]. destruct (String.compare key k0) eqn:Hc.
    + exact Hasc'.
    + change (ascending (key :: k0 :: map_keys rest)).
      apply ascending_cons; split; [exact Hc | exact Hasc'].
    + change (ascending (k0 :: map_keys (map_insert key v rest))).
      apply ascending_cons; split; [|apply IH; exact Hrest].
      apply below_insert; [apply compare_gt_lt; exact Hc | exact Hb].
Qed.

(** Inserting under a key that is there changes nothing. *)
Lemma map_insert_present key v m :
  ascending (map_keys m) -> map_find key m <> None -> map_insert key v m = m.
Proof.
  induction m as [|[k0 w] rest IH]; intros Hasc Hfind.
  - contradiction Hfind. reflexivity.
  - cbn [map_insert]. destruct (String.compare key k0) eqn:Hc.
    + reflexivity.
    + exfalso. apply Hfind. apply map_find_None.
      exact (ascending_head_absent key k0 (map_keys rest) Hasc Hc).
    + f_equal. apply IH; [exact (ascending_tail k0 w rest Hasc)|].
      cbn [map_find] in Hfind. rewrite (compare_neq key k0) in Hfind by congruence.
      exact Hfind.
Qed.

Lemma map_insert_entries key v m (P : string * V -> Prop) :
  P (key, v) -> Forall P m -> Forall P (map_insert key v m).
Proof.
  intros Hnew. induction 1 as [|[k0 w] rest Hk0 Hrest IH]; simpl.
  - constructor; [exact Hnew | constructor].
  - destruct (String.compare key k0); repeat constructor; assumption.
Qed.

Lemma map_find_In k v m : map_find k m = Some v -> In (k, v) m.
Proof.
  induction m as [|[k0 w] rest IH]; simpl; intros H; [discriminate|].
  destruct (k =? k0) eqn:E.
  - apply String.eqb_eq in E. injection H as <-. subst k0. left; reflexivity.
  - right. apply IH, H.
Qed.

Lemma In_map_find k v m :
  ascending (map_keys m) -> In (k, v) m -> map_find k m = Some v.
Proof.
  intros Hasc Hin. apply ascending_NoDup in Hasc.
  induction m as [|[k0 w] rest IH]; simpl in *; [contradiction|].
  inversion Hasc as [|? ? Hnotin Hnd]; subst.
  destruct Hin as [Heq|Hin].
  - injection Heq as -> ->. rewrite String.eqb_refl. reflexivity.
  - destruct (k =? k0) eqn:E.
    + apply String.eqb_eq in E. subst k0. exfalso. apply Hnotin.
      apply (in_map fst) in Hin. exact Hin.
    + apply IH; assumption.
Qed.
End insert_facts.

Lemma find_map_find {F : Type} (name : string) (registry : GeomFunction.registry_t F) :
  GeomFunction.find name registry = map_find name registry.
Proof.
  unfold GeomFunction.find, map_count. destruct (map_find name registry); reflexivity.
Qed.

Lemma find_add5 {F : Type} (registry : GeomFunction.registry_t F)
      (n desc : string) (nGeomParam nParam : Z) (f : F) (name : string) :
  ascending (map_keys registry) ->
  GeomFunction.find name (GeomFunction.add5 n desc nGeomParam nParam f registry)
  = match GeomFunction.find name registry with
    | Some old => Some old
    | None =>
        if name =? n
        then Some (GeomFunction.mkGeomFunction n desc f nGeomParam nParam)
        else None
    end.
Proof.
  intros Hasc. unfold GeomFunction.add5. rewrite !find_map_find.
  apply map_find_insert, Hasc.
Qed.

(** X13. In the registry the first registration of a name wins: after
    [add], a name that was registered still finds the function it found
    before, the added name finds the new function only if it was free, and
    adding under a name that is taken leaves the whole registry as it was. *)
Theorem find_after_add {F : Type} (registry : GeomFunction.registry_t F)
        (n desc : string) (nGeomParam nParam : Z) (f : F) :
  ascending (map_keys registry) ->
  (forall name,
      GeomFunction.find name (GeomFunction.add5 n desc nGeomParam nParam f registry)
      = match GeomFunction.find name registry with
        | Some old => Some old
        | None =>
            if name =? n
            then Some (GeomFunction.mkGeomFunction n desc f nGeomParam nParam)
            else None
        end) /\
  (GeomFunction.find n registry <> None ->
   GeomFunction.add5 n desc nGeomParam nParam f registry = registry) /\
  ascending (map_keys (GeomFunction.add5 n desc nGeomParam nParam f registry)).
Proof.
  intros Hasc. unfold GeomFunction.add5. split; [|split].
  - intros name. apply (find_add5 registry n desc nGeomParam nParam f name Hasc).
  - rewrite find_map_find. intros H. apply map_insert_present; assumption.
  - apply ascending_insert, Hasc.
Qed.

Lemma find_after_add_witness :
  GeomFunction.find "area"
    (GeomFunction.add5 "area" "second" 2 0 7
       (GeomFunction.add3 "area" 3 []))
  = Some (GeomFunction.mkGeomFunction "area" "computes area for geometry A" 3 1 0).
Proof.
  rewrite (proj1 (find_after_add (GeomFunction.add3 "area" 3 []) "area" "second" 2 0 7
                    (I : ascending (map_keys (GeomFunction.add3 "area" 3 []))))
                 "area").
  reflexivity.
Defined.

(** X14. A registry built by [add] files every function under its own name
    and keeps the names in ascending order: [add] keeps both, the empty
    registry has both, and so a function found under a name answers that
    name from [name()]. *)
Theorem registry_names {F : Type} (registry : GeomFunction.registry_t F) :
  GeomFunction.well_formed registry ->
  (forall n desc nGeomParam nParam f,
      GeomFunction.well_formed (GeomFunction.add5 n desc nGeomParam nParam f registry)) /\
  (forall n f, GeomFunction.well_formed (GeomFunction.add3 n f registry)) /\
  (forall n fn, GeomFunction.find n registry = Some fn -> GeomFunction.name fn = n).
Proof.
  intros [Hasc Hnames].
  assert (Hadd : forall n desc nGeomParam nParam f,
             GeomFunction.well_formed
               (GeomFunction.add5 n desc nGeomParam nParam f registry)).
  { intros n desc nGeomParam nParam f. unfold GeomFunction.add5. split.
    - apply ascending_insert, Hasc.
    - apply map_insert_entries; [reflexivity | exact Hnames]. }
  split; [exact Hadd | split].
  - intros n f. apply Hadd.
  - intros n fn Hfind. rewrite find_map_find in Hfind. apply map_find_In in Hfind.
    rewrite Forall_forall in Hnames. exact (Hnames (n, fn) Hfind).
Qed.

Lemma registry_names_witness :
  GeomFunction.well_formed (GeomFunction.add3 "area" 3 []) /\
  GeomFunction.well_formed
    (GeomFunction.add5 "buffer" "cmputes the buffer of geometry A" 1 1 4
       (GeomFunction.add3 "area" 3 [])).
Proof.
  assert (H0 : GeomFunction.well_formed (@nil (string * GeomFunction.GeomFunction nat))).
  { split; [exact I | constructor]. }
  pose proof (proj1 (proj2 (registry_names [] H0)) "area" 3) as H1.
  split; [exact H1|].
  exact (proj1 (registry_names (GeomFunction.add3 "area" 3 []) H1)
               "buffer" "cmputes the buffer of geometry A" 1%Z 1%Z 4).
Defined.

(** X15. A function added with the short [add] under a free name is found
    under that name, is unary, takes no number, and has the signature
    [name A] and the description [computes name for geometry A]. *)
Theorem short_add_signature {F : Type} (registry : GeomFunction.registry_t F)
        (n : string) (f : F) :
  ascending (map_keys registry) ->
  GeomFunction.find n registry = None ->
  exists fn,
    GeomFunction.find n (GeomFunction.add3 n f registry) = Some fn /\
    GeomFunction.geomfun fn = f /\
    GeomFunction.isBinary fn = false /\
    GeomFunction.signature fn = String.append n " A" /\
    GeomFunction.description fn
    = String.append "computes " (String.append n " for geometry A").
Proof.
  intros Hasc Hfree. eexists. split.
  - unfold GeomFunction.add3.
    rewrite (find_add5 registry n _ 1 0 f n Hasc).
    rewrite Hfree, String.eqb_refl. reflexivity.
  - repeat split.
Qed.

Lemma short_add_signature_witness :
  exists fn,
    GeomFunction.find "copy" (GeomFunction.add3 "copy" 4 (GeomFunction.add3 "area" 0 []))
    = Some fn /\
    GeomFunction.signature fn = "copy A".
Proof.
  destruct (short_add_signature (GeomFunction.add3 "area" 0 []) "copy" 4
              (I : ascending (map_keys (GeomFunction.add3 "area" 0 [])))
              eq_refl) as [fn [Hfind [_ [_ [Hsig _]]]]].
  exists fn. split; [exact Hfind | exact Hsig].
Defined.

(** X16. [list] has one line per registered function and no other: a text
    is a line of the list exactly when some name finds a function whose
    signature, then [" - "], then description make that text; and there are
    as many lines as entries, in the ascending order of the names. *)
Theorem list_lines {F : Type} (registry : GeomFunction.registry_t F) (line : string) :
  ascending (map_keys registry) ->
  List.length (GeomFunction.list registry) = List.length registry /\
  (In line (GeomFunction.list registry) <->
   exists n fn,
     GeomFunction.find n registry = Some fn /\
     line = String.append (GeomFunction.signature fn)
                          (String.append " - " (GeomFunction.description fn))).
Proof.
  intros Hasc. unfold GeomFunction.list. split; [apply length_map|].
  rewrite in_map_iff. split.
  - intros [[n fn] [Hline Hin]]. exists n, fn. split; [|symmetry; exact Hline].
    rewrite find_map_find. apply In_map_find; assumption.
  - intros [n [fn [Hfind ->]]]. exists (n, fn). split; [reflexivity|].
    rewrite find_map_find in Hfind. apply map_find_In, Hfind.
Qed.

Lemma list_lines_witness :
  In "buffer A N - cmputes the buffer of geometry A"
     (GeomFunction.list
        (GeomFunction.add5 "buffer" "cmputes the buffer of geometry A" 1 1 2
           (GeomFunction.add3 "area" 0 []))).
Proof.
  apply (proj2 (proj2 (list_lines
                  (GeomFunction.add5 "buffer" "cmputes the buffer of geometry A" 1 1 2
                     (GeomFunction.add3 "area" 0 []))
                  "buffer A N - cmputes the buffer of geometry A"
                  (conj eq_refl I)))).
  exists "buffer",
    (GeomFunction.mkGeomFunction "buffer" "cmputes the buffer of geometry A" 2 1 1).
  split; reflexivity.
Defined.

Section init_facts.
Context {F : Type}.
Implicit Types (registry : GeomFunction.registry_t F) (c : GeomFunction.call F).

Lemma run_call_add5 c registry :
  exists desc nGeomParam nParam,
    GeomFunction.run_call c registry
    = GeomFunction.add5 (GeomFunction.call_name c) desc nGeomParam nParam
        (GeomFunction.call_geomfun c) registry.
Proof.
  destruct c; simpl; unfold GeomFunction.add3; eauto.
Qed.

Lemma run_call_ascending c registry :
  ascending (map_keys registry) ->
  ascending (map_keys (GeomFunction.run_call c registry)).
Proof.
  intros Hasc. destruct (run_call_add5 c registry) as [d [g [p ->]]].
  unfold GeomFunction.add5. apply ascending_insert, Hasc.
Qed.

Lemma run_call_present c registry (n : string) :
  ascending (map_keys registry) ->
  n = GeomFunction.call_name c \/ GeomFunction.find n registry <> None ->
  GeomFunction.find n (GeomFunction.run_call c registry) <> None.
Proof.
  intros Hasc Hn. destruct (run_call_add5 c registry) as [d [g [p ->]]].
  rewrite (find_add5 registry _ d g p _ n Hasc).
  destruct (GeomFunction.find n registry); [discriminate|].
  destruct Hn as [->|Hn]; [rewrite String.eqb_refl; discriminate | contradiction].
Qed.

Lemma run_call_noop c registry :
  ascending (map_keys registry) ->
  GeomFunction.find (GeomFunction.call_name c) registry <> None ->
  GeomFunction.run_call c registry = registry.
Proof.
  intros Hasc Hfind. destruct (run_call_add5 c registry) as [d [g [p ->]]].
  unfold GeomFunction.add5. rewrite find_map_find in Hfind.
  apply map_insert_present; assumption.
Qed.

Lemma run_calls_ascending (calls : list (GeomFunction.call F)) : forall registry,
  ascending (map_keys registry) ->
  ascending (map_keys (fold_left (fun r c => GeomFunction.run_call c r) calls registry)).
Proof.
  induction calls as [|c rest IH]; intros registry Hasc; simpl; [exact Hasc|].
  apply IH, run_call_ascending, Hasc.
Qed.

Lemma run_calls_present (calls : list (GeomFunction.call F)) (n : string) :
  forall registry,
    ascending (map_keys registry) ->
    In n (map (@GeomFunction.call_name F) calls) \/ GeomFunction.find n registry <> None ->
    GeomFunction.find n (fold_left (fun r c => GeomFunction.run_call c r) calls registry)
    <> None.
Proof.
  induction calls as [|c rest IH]; intros registry Hasc Hn; simpl.
  - destruct Hn as [[]|Hn]; exact Hn.
  - apply IH; [apply run_call_ascending, Hasc|].
    destruct Hn as [[Hc|Hin]|Hn].
    + right. apply run_call_present; [exact Hasc | left; symmetry; exact Hc].
    + left; exact Hin.
    + right. apply run_call_present; [exact Hasc | right; exact Hn].
Qed.

Lemma run_calls_noop (calls : list (GeomFunction.call F)) : forall registry,
  ascending (map_keys registry) ->
  (forall n, In n (map (@GeomFunction.call_name F) calls) ->
             GeomFunction.find n registry <> None) ->
  fold_left (fun r c => GeomFunction.run_call c r) calls registry = registry.
Proof.
  induction calls as [|c rest IH]; intros registry Hasc Hall; simpl; [reflexivity|].
  rewrite (run_call_noop c registry Hasc) by (apply Hall; left; reflexivity).
  apply IH; [exact Hasc|]. intros n Hin. apply Hall. right; exact Hin.
Qed.
End init_facts.

(** X17. Calling [init] again changes nothing: on a registry that [init]
    has filled, a second [init], even one that brings other functions,
    leaves every entry as it is, since every name is taken. *)
Theorem init_twice {F : Type} (lambda lambda' : nat -> F)
        (registry : GeomFunction.registry_t F) :
  ascending (map_keys registry) ->
  GeomFunction.init lambda' (GeomFunction.init lambda registry)
  = GeomFunction.init lambda registry /\
  ascending (map_keys (GeomFunction.init lambda registry)).
Proof.
  intros Hasc.
  assert (Hasc' : ascending (map_keys (GeomFunction.init lambda registry))).
  { apply run_calls_ascending, Hasc. }
  split; [|exact Hasc'].
  unfold GeomFunction.init at 1. apply run_calls_noop; [exact Hasc'|].
  intros n Hin. unfold GeomFunction.init. apply run_calls_present; [exact Hasc|].
  left. exact Hin.
Qed.

Lemma init_twice_witness :
  GeomFunction.init (fun i => S i) (GeomFunction.init (fun i => i) [])
  = GeomFunction.init (fun i => i) [].
Proof.
  exact (proj1 (init_twice (fun i => i) (fun i => S i) [] I)).
Defined.

(** X18. [init] registers all of its forty functions: from the empty
    registry, the name of the [i]-th call finds a function that answers that
    name and holds the [i]-th lambda expression, so no name repeats and no
    registration is dropped; [list] then has forty lines. *)
Theorem init_registers_all {F : Type} (lambda : nat -> F) (i : nat)
        (c : GeomFunction.call F) :
  nth_error (GeomFunction.init_calls lambda) i = Some c ->
  List.length (GeomFunction.list (GeomFunction.init lambda [])) = 40 /\
  exists fn,
    GeomFunction.find (GeomFunction.call_name c) (GeomFunction.init lambda []) = Some fn /\
    GeomFunction.name fn = GeomFunction.call_name c /\
    GeomFunction.geomfun fn = lambda i.
Proof.
  intros H. split; [reflexivity|].
  do 40 (destruct i as [|i];
         [injection H as <-; eexists; split; [reflexivity | split; reflexivity]|]).
  destruct i; discriminate H.
Qed.

Lemma init_registers_all_witness :
  exists fn,
    GeomFunction.find "envelope" (GeomFunction.init (fun i => i) []) = Some fn /\
    GeomFunction.geomfun fn = 9.
Proof.
  destruct (init_registers_all (fun i => i) 9 (GeomFunction.Add3 "envelope" 9) eq_refl)
    as [_ [fn [Hfind [_ Hfun]]]].
  exists fn. split; [exact Hfind | exact Hfun].
Defined.
